(** * Heart-disease ETL job ([dataproc_heart_analysis.py]): model and properties

    The job is a PySpark script: it reads a CSV file into a DataFrame, casts
    two columns, derives a BMI column, filters, encodes the label, fits and
    applies an ML pipeline (32 [StringIndexer]s, a [VectorAssembler] and a
    [StandardScaler]), projects 37 columns and writes them to BigQuery.

    The script is embedded as Rocq functions over an explicit DataFrame
    value.  The Spark operations it calls are given their documented
    semantics (Spark 3.x, ANSI mode off, as on Dataproc images):
    - a DataFrame is a typed schema and a list of rows; column names are
      matched exactly, and strings are compared and ordered byte by byte;
    - doubles are IEEE binary64 numbers ([spec_float] with precision 53 and
      [emax] 1024); [pow(x, 2.0)] is [x * x] (the special case of
      [StrictMath.pow]); [/] yields null for a null operand or a zero
      divisor;
    - cell values are null, strings, integers, doubles and ML vectors;
      columns inferred as boolean or timestamp are outside the model;
    - what only the execution engine decides is a field of [Engine]: the two
      casts between strings and doubles, the standard deviations computed by
      the distributed summarizer (a floating-point aggregation whose result
      depends on the partitioning), the CSV reader and the BigQuery writer. *)

From Stdlib Require Import ZArith List String Ascii Bool Lia.
From Stdlib Require Import Floats.SpecFloat.
From Stdlib Require Import Sorting.Permutation Sorting.Sorted.
From Stdlib Require Import Structures.OrderedTypeEx.
From Stdlib Require DecimalString.
Import ListNotations.
Open Scope string_scope.

(** ** Doubles *)

Definition double := spec_float.

Definition dmul : double -> double -> double := SFmul 53 1024.
Definition ddiv : double -> double -> double := SFdiv 53 1024.

(** [lit(z)] as a double: the nearest binary64 number. *)
Definition double_of_Z (z : Z) : double := binary_normalize 53 1024 z 0 false.

Definition is_nan (d : double) : bool :=
  match d with S754_nan => true | _ => false end.

(** [d == 0.0]: true for both signed zeros. *)
Definition is_zero (d : double) : bool :=
  match d with S754_zero _ => true | _ => false end.

Definition is_finite (d : double) : bool :=
  match d with S754_zero _ | S754_finite _ _ _ => true | _ => false end.

(** ** Errors *)

Inductive error :=
| ReadFailed (path : string)
| ColumnNotFound (c : string)
| OutputColumnExists (c : string)
| UnsupportedType (c : string)
| EmptySummarizer
| WriteFailed (table : string).

Inductive result (A : Type) :=
| Ok (a : A)
| Err (e : error).
Arguments Ok {A} a.
Arguments Err {A} e.

Definition bind {A B : Type} (m : result A) (k : A -> result B) : result B :=
  match m with
  | Ok a => k a
  | Err e => Err e
  end.

Notation "x <- m ;; k" := (bind m (fun x => k))
  (at level 61, m at next level, right associativity).

Definition require (b : bool) (e : error) : result unit :=
  if b then Ok tt else Err e.

(** [str(e)] of the exception, as interpolated into the log lines. *)
Definition str_of_error (e : error) : string :=
  match e with
  | ReadFailed p => "Path does not exist: " ++ p
  | ColumnNotFound c => "Column cannot be resolved: " ++ c
  | OutputColumnExists c => "Output column " ++ c ++ " already exists."
  | UnsupportedType c => "Data type of column " ++ c ++ " is not supported."
  | EmptySummarizer => "Nothing has been added to this summarizer."
  | WriteFailed t => "Failed to write to " ++ t
  end.

(** ** DataFrames *)

Inductive value :=
| VNull
| VStr (s : string)
| VInt (z : Z)
| VDouble (d : double)
| VVec (v : list double).

Inductive dtype := TString | TInt | TDouble | TVector.

Definition Row := list (string * value).

Record DataFrame := mkDF {
  schema : list (string * dtype);
  rows : list Row
}.

Definition columns (df : DataFrame) : list string := map fst (schema df).

Fixpoint assoc_get {A : Type} (k : string) (l : list (string * A)) : option A :=
  match l with
  | [] => None
  | (k', a) :: l' => if String.eqb k k' then Some a else assoc_get k l'
  end.

(** Replace the binding of [k] where it stands, or append a new one. *)
Fixpoint assoc_set {A : Type} (k : string) (a : A) (l : list (string * A))
  : list (string * A) :=
  match l with
  | [] => [(k, a)]
  | (k', a') :: l' =>
      if String.eqb k k' then (k, a) :: l' else (k', a') :: assoc_set k a l'
  end.

Definition assoc_del {A : Type} (k : string) (l : list (string * A))
  : list (string * A) :=
  filter (fun p => negb (String.eqb k (fst p))) l.

Definition get (c : string) (r : Row) : value :=
  match assoc_get c r with
  | Some v => v
  | None => VNull
  end.

Definition has_column (c : string) (df : DataFrame) : bool :=
  match assoc_get c (schema df) with
  | Some _ => true
  | None => false
  end.

(** A column expression: the columns it refers to and its value on a row.
    Conditions are columns of SQL booleans ([None] is the SQL null). *)
Record Column (A : Type) := mkColumn {
  refs : list string;
  eval : Row -> A
}.
Arguments mkColumn {A} refs eval.
Arguments refs {A} c.
Arguments eval {A} c r.

Definition resolve (cs : list string) (df : DataFrame) : result unit :=
  fold_right (fun c k => _ <- require (has_column c df) (ColumnNotFound c) ;; k)
             (Ok tt) cs.

(** [F.col(c)] *)
Definition col (c : string) : Column value := mkColumn [c] (get c).

(** [e.cast("double")], ANSI off: values that do not convert become null. *)
Definition to_double (parse : string -> option double) (v : value) : value :=
  match v with
  | VNull => VNull
  | VStr s => match parse s with Some d => VDouble d | None => VNull end
  | VInt z => VDouble (double_of_Z z)
  | VDouble d => VDouble d
  | VVec _ => VNull
  end.

Definition cast_double (parse : string -> option double) (e : Column value)
  : Column value :=
  mkColumn (refs e) (fun r => to_double parse (eval e r)).

(** [a ** 2], that is [pow(a, 2.0)] on a double column. *)
Definition pow2_value (v : value) : value :=
  match v with
  | VDouble d => VDouble (dmul d d)
  | _ => VNull
  end.

Definition pow2 (e : Column value) : Column value :=
  mkColumn (refs e) (fun r => pow2_value (eval e r)).

(** [a / b] on double columns: null for a null operand or a zero divisor. *)
Definition div_value (a b : value) : value :=
  match a, b with
  | VDouble x, VDouble y => if is_zero y then VNull else VDouble (ddiv x y)
  | _, _ => VNull
  end.

Definition div (a b : Column value) : Column value :=
  mkColumn (refs a ++ refs b) (fun r => div_value (eval a r) (eval b r)).

(** [e.isNotNull()] *)
Definition isNotNull (e : Column value) : Column (option bool) :=
  mkColumn (refs e)
    (fun r => match eval e r with VNull => Some false | _ => Some true end).

(** [F.isnan(e)]: false on null. *)
Definition isnan (e : Column value) : Column (option bool) :=
  mkColumn (refs e)
    (fun r => match eval e r with VDouble d => Some (is_nan d) | _ => Some false end).

(** [~ c] *)
Definition cnot (c : Column (option bool)) : Column (option bool) :=
  mkColumn (refs c) (fun r => option_map negb (eval c r)).

(** [a & b], three-valued. *)
Definition and3 (a b : option bool) : option bool :=
  match a, b with
  | Some false, _ | _, Some false => Some false
  | Some true, Some true => Some true
  | _, _ => None
  end.

Definition cand (a b : Column (option bool)) : Column (option bool) :=
  mkColumn (refs a ++ refs b) (fun r => and3 (eval a r) (eval b r)).

(** [e == "literal"]: a string equals the literal byte for byte; a null
    compares to null; a number is compared with the literal cast to a
    number, which is null for a literal that is not numeric. *)
Definition eq_lit (e : Column value) (s : string) : Column (option bool) :=
  mkColumn (refs e)
    (fun r => match eval e r with
              | VStr s' => Some (String.eqb s' s)
              | _ => None
              end).

(** [F.when(c, a).otherwise(b)] with integer literals. *)
Definition when_otherwise (c : Column (option bool)) (a b : Z) : Column value :=
  mkColumn (refs c)
    (fun r => match eval c r with Some true => VInt a | _ => VInt b end).

(** [df.withColumn(name, e)] *)
Definition withColumn (name : string) (ty : dtype) (e : Column value)
  (df : DataFrame) : result DataFrame :=
  _ <- resolve (refs e) df ;;
  Ok (mkDF (assoc_set name ty (schema df))
           (map (fun r => assoc_set name (eval e r) r) (rows df))).

(** [df.filter(c)]: keeps the rows on which the condition is true. *)
Definition keeps (c : Column (option bool)) (r : Row) : bool :=
  match eval c r with Some true => true | _ => false end.

Definition filter_df (c : Column (option bool)) (df : DataFrame)
  : result DataFrame :=
  _ <- resolve (refs c) df ;;
  Ok (mkDF (schema df) (filter (keeps c) (rows df))).

(** [df.drop] on a list of names: names that are not columns are ignored. *)
Definition drop (names : list string) (df : DataFrame) : DataFrame :=
  mkDF (fold_left (fun s c => assoc_del c s) names (schema df))
       (map (fun r => fold_left (fun s c => assoc_del c s) names r) (rows df)).

(** [df.select] on a list of names *)
Definition select (names : list string) (df : DataFrame) : result DataFrame :=
  sch <- fold_right
           (fun c k =>
              match assoc_get c (schema df) with
              | Some ty => s <- k ;; Ok ((c, ty) :: s)
              | None => Err (ColumnNotFound c)
              end)
           (Ok []) names ;;
  Ok (mkDF sch (map (fun r => map (fun c => (c, get c r)) names) (rows df))).

(** ** The execution engine *)

Record Engine := mkEngine {
  (** Spark's cast of a string to a double *)
  parse_double : string -> option double;
  (** Spark's cast of a double to a string *)
  show_double : double -> string;
  (** the per-component standard deviations that the summarizer computes
      over the assembled vectors (one per component) *)
  summarize_std : list (list double) -> list double;
  (** [spark.read.csv(path, header=True, inferSchema=True)] *)
  read_csv : string -> result DataFrame;
  (** [df.write.format("bigquery").option("table", t).mode("overwrite").save()] *)
  bq_save : string -> DataFrame -> option error
}.

(** ** ML stages: [StringIndexer] *)

Definition string_of_Z (z : Z) : string :=
  DecimalString.NilZero.string_of_int (Z.to_int z).

(** The label of a cell: the column cast to a string; nulls and NaNs carry
    no label. *)
Definition label_of (show : double -> string) (v : value) : option string :=
  match v with
  | VNull => None
  | VStr s => Some s
  | VInt z => Some (string_of_Z z)
  | VDouble d => if is_nan d then None else Some (show d)
  | VVec _ => None
  end.

Fixpoint bump (l : string) (counts : list (string * nat)) : list (string * nat) :=
  match counts with
  | [] => [(l, 1)]
  | (k, n) :: t => if String.eqb k l then (k, S n) :: t else (k, n) :: bump l t
  end.

(** [countByValue]: the number of occurrences of every label. *)
Definition count_by_value (ls : list string) : list (string * nat) :=
  fold_left (fun acc l => bump l acc) ls [].

(** [getSortFunc(ascending = false)] of the default order [frequencyDesc]:
    higher frequency first; at equal frequency the smaller string first
    (ML guide: in case of equal frequency the strings are further sorted
    by alphabet). *)
Definition sortFunc (a b : string * nat) : bool :=
  if Nat.eqb (snd a) (snd b) then String.ltb (fst a) (fst b)
  else Nat.ltb (snd b) (snd a).

Fixpoint insert_by {A : Type} (lt : A -> A -> bool) (x : A) (l : list A) : list A :=
  match l with
  | [] => [x]
  | y :: t => if lt x y then x :: y :: t else y :: insert_by lt x t
  end.

Definition sortWith {A : Type} (lt : A -> A -> bool) (l : list A) : list A :=
  fold_right (insert_by lt) [] l.

Fixpoint filter_some {A : Type} (l : list (option A)) : list A :=
  match l with
  | [] => []
  | Some a :: t => a :: filter_some t
  | None :: t => filter_some t
  end.

Definition observed_labels (show : double -> string) (c : string)
  (rs : list Row) : list string :=
  filter_some (map (fun r => label_of show (get c r)) rs).

(** The fitted vocabulary of column [c]: [labels[i]] has index [i]. *)
Definition fit_labels (show : double -> string) (c : string) (rs : list Row)
  : list string :=
  map fst (sortWith sortFunc (count_by_value (observed_labels show c rs))).

Fixpoint index_of (l : string) (labels : list string) : option nat :=
  match labels with
  | [] => None
  | k :: t => if String.eqb k l then Some 0
              else option_map S (index_of l t)
  end.

(** The index is stored as a double. *)
Definition index_value (i : nat) : value := VDouble (double_of_Z (Z.of_nat i)).

(** One row through a fitted indexer with [handleInvalid = "skip"]. *)
Definition index_row (show : double -> string) (inputCol outputCol : string)
  (labels : list string) (r : Row) : option Row :=
  match label_of show (get inputCol r) with
  | None => None
  | Some l =>
      match index_of l labels with
      | None => None
      | Some i => Some (assoc_set outputCol (index_value i) r)
      end
  end.

(** ** ML stages: [VectorAssembler] *)

Definition numeric_or_vector (ty : dtype) : bool :=
  match ty with TString => false | _ => true end.

(** [na.drop]: a null, or a NaN in a double column. *)
Definition invalid_number (v : value) : bool :=
  match v with
  | VNull => true
  | VDouble d => is_nan d
  | _ => false
  end.

Definition components (v : value) : list double :=
  match v with
  | VDouble d => [d]
  | VInt z => [double_of_Z z]
  | VVec ds => ds
  | _ => []
  end.

Definition assemble_row (inputCols : list string) (outputCol : string) (r : Row)
  : option Row :=
  if existsb (fun c => invalid_number (get c r)) inputCols then None
  else Some (assoc_set outputCol
               (VVec (flat_map (fun c => components (get c r)) inputCols)) r).

(** ** ML stages: [StandardScaler] with [withStd=True, withMean=False] *)

(** The factor of a component: [1.0 / std], and [0.0] for a zero [std]
    (ML guide: if the standard deviation of a feature is zero, it will
    return default 0.0 value in the vector for that feature). *)
Definition scale_factor (std : double) : double :=
  if is_zero std then S754_zero false else ddiv (double_of_Z 1) std.

Fixpoint scale_vector (std v : list double) : list double :=
  match std, v with
  | s :: std', x :: v' => dmul x (scale_factor s) :: scale_vector std' v'
  | _, _ => []
  end.

Definition scale_value (std : list double) (v : value) : value :=
  match v with
  | VVec ds => VVec (scale_vector std ds)
  | _ => VNull
  end.

Definition vector_of (v : value) : list double :=
  match v with VVec ds => ds | _ => [] end.

(** ** Pipelines *)

Inductive stage :=
| StringIndexer (inputCol outputCol : string)
| VectorAssembler (inputCols : list string) (outputCol : string)
| StandardScaler (inputCol outputCol : string).

Inductive model :=
| StringIndexerModel (inputCol outputCol : string) (labels : list string)
| VectorAssemblerT (inputCols : list string) (outputCol : string)
| StandardScalerModel (inputCol outputCol : string) (std : list double).

Definition is_estimator (s : stage) : bool :=
  match s with VectorAssembler _ _ => false | _ => true end.

Definition column_type (c : string) (df : DataFrame) : result dtype :=
  match assoc_get c (schema df) with
  | Some ty => Ok ty
  | None => Err (ColumnNotFound c)
  end.

Definition check_inputs (cs : list string) (ok : dtype -> bool) (df : DataFrame)
  : result unit :=
  fold_right (fun c k => ty <- column_type c df ;;
                         _ <- require (ok ty) (UnsupportedType c) ;; k)
             (Ok tt) cs.

(** [estimator.fit(df)] *)
Definition fit (E : Engine) (s : stage) (df : DataFrame) : result model :=
  match s with
  | StringIndexer c out =>
      _ <- check_inputs [c] (fun ty => match ty with TVector => false | _ => true end) df ;;
      _ <- require (negb (has_column out df)) (OutputColumnExists out) ;;
      Ok (StringIndexerModel c out (fit_labels (show_double E) c (rows df)))
  | VectorAssembler cs out => Ok (VectorAssemblerT cs out)
  | StandardScaler c out =>
      _ <- check_inputs [c] (fun ty => match ty with TVector => true | _ => false end) df ;;
      _ <- require (negb (has_column out df)) (OutputColumnExists out) ;;
      _ <- require (negb (Nat.eqb (List.length (rows df)) 0)) EmptySummarizer ;;
      Ok (StandardScalerModel c out
            (summarize_std E (map (fun r => vector_of (get c r)) (rows df))))
  end.

(** [transformer.transform(df)] *)
Definition transform (E : Engine) (m : model) (df : DataFrame) : result DataFrame :=
  match m with
  | StringIndexerModel c out labels =>
      if has_column c df then
        _ <- require (negb (has_column out df)) (OutputColumnExists out) ;;
        Ok (mkDF (assoc_set out TDouble (schema df))
                 (filter_some (map (index_row (show_double E) c out labels) (rows df))))
      else Ok df
  | VectorAssemblerT cs out =>
      _ <- check_inputs cs numeric_or_vector df ;;
      _ <- require (negb (has_column out df)) (OutputColumnExists out) ;;
      Ok (mkDF (assoc_set out TVector (schema df))
               (filter_some (map (assemble_row cs out) (rows df))))
  | StandardScalerModel c out std =>
      _ <- check_inputs [c] (fun ty => match ty with TVector => true | _ => false end) df ;;
      _ <- require (negb (has_column out df)) (OutputColumnExists out) ;;
      Ok (mkDF (assoc_set out TVector (schema df))
               (map (fun r => assoc_set out (scale_value std (get c r)) r) (rows df)))
  end.

(** [Pipeline(stages).fit(df)]: every stage up to the last estimator is
    fitted on the data as transformed by the stages before it. *)
Fixpoint pipeline_fit (E : Engine) (stages : list stage) (df : DataFrame)
  : result (list model) :=
  match stages with
  | [] => Ok []
  | s :: rest =>
      m <- fit E s df ;;
      if existsb is_estimator rest then
        df' <- transform E m df ;;
        ms <- pipeline_fit E rest df' ;;
        Ok (m :: ms)
      else
        ms <- pipeline_fit E rest df ;;
        Ok (m :: ms)
  end.

(** [PipelineModel.transform(df)] *)
Fixpoint pipeline_transform (E : Engine) (ms : list model) (df : DataFrame)
  : result DataFrame :=
  match ms with
  | [] => Ok df
  | m :: rest => df' <- transform E m df ;; pipeline_transform E rest df'
  end.

(** ** The script *)

Definition GCS_FILE_PATH : string :=
  "gs://cardiopredict-bronzedata-12345/heart_2022_no_nans.csv".
Definition BIGQUERY_OUTPUT_TABLE : string :=
  "cardio-predict-project.heart_analytics_dataset.processed_heart_data".
Definition GCS_STAGING_BUCKET : string := "cardiopredict-bronzedata-12345".

(** The lines the script prints on standard output, in the order of the
    source: [Using GCS Path from command line: {path}], [Spark Session
    Initialized. ...], [ERROR during processing: {e}], [Successfully wrote
    Silver Layer data to BigQuery!] and [ERROR: Could not write to
    BigQuery: {e}]. *)
Inductive printed :=
| UsingPathFromCommandLine (path : string)
| SessionInitialized
| ErrorDuringProcessing (msg : string)
| WroteSilverLayer
| ErrorCouldNotWrite (msg : string).

(** Module level: [if len(sys.argv) > 1: GCS_FILE_PATH = sys.argv[1]]. *)
Definition configure (argv : list string) : string * list printed :=
  if Nat.ltb 1 (List.length argv) then
    let p := nth 1 argv "" in (p, [UsingPathFromCommandLine p])
  else (GCS_FILE_PATH, []).

Definition categorical_cols : list string :=
  [ "Sex"; "GeneralHealth"; "LastCheckupTime"; "PhysicalActivities"; "RemovedTeeth";
    "HadAngina"; "HadStroke"; "HadAsthma"; "HadSkinCancer"; "HadCOPD";
    "HadDepressiveDisorder"; "HadKidneyDisease"; "HadArthritis"; "HadDiabetes";
    "DeafOrHardOfHearing"; "BlindOrVisionDifficulty"; "DifficultyConcentrating";
    "DifficultyWalking"; "DifficultyDressingBathing"; "DifficultyErrands";
    "SmokerStatus"; "ECigaretteUsage"; "ChestScan"; "RaceEthnicityCategory";
    "AgeCategory"; "AlcoholDrinkers"; "HIVTesting"; "FluVaxLast12";
    "PneumoVaxEver"; "TetanusLast10Tdap"; "HighRiskLastYear"; "CovidPos" ].

Definition numerical_cols : list string :=
  [ "PhysicalHealthDays"; "MentalHealthDays"; "SleepHours"; "BMI_Calculated" ].

(** Schema resolution: the two casts to double. *)
Definition schema_normalizer (E : Engine) (df : DataFrame) : result DataFrame :=
  df <- withColumn "WeightInKilograms" TDouble
          (cast_double (parse_double E) (col "WeightInKilograms")) df ;;
  withColumn "HeightInMeters" TDouble
          (cast_double (parse_double E) (col "HeightInMeters")) df.

Definition bmi : Column value :=
  div (col "WeightInKilograms") (pow2 (col "HeightInMeters")).

Definition bmi_valid : Column (option bool) :=
  cand (isNotNull (col "BMI_Calculated")) (cnot (isnan (col "BMI_Calculated"))).

(** BMI calculation and data-integrity filtering. *)
Definition feature_deriver (df : DataFrame) : result DataFrame :=
  df <- withColumn "BMI_Calculated" TDouble bmi df ;;
  filter_df bmi_valid df.

(** Target encoding. *)
Definition label_encoder (df : DataFrame) : result DataFrame :=
  withColumn "HadHeartAttack_Numeric" TInt
    (when_otherwise (eq_lit (col "HadHeartAttack") "Yes") 1 0) df.

Definition dropped_cols : list string :=
  [ "State"; "HeightInMeters"; "WeightInKilograms"; "BMI"; "HadHeartAttack" ].

(** Section 2 of [main], after the read: the body of the first [try]. *)
Definition clean (E : Engine) (df : DataFrame) : result DataFrame :=
  df <- schema_normalizer E df ;;
  df <- feature_deriver df ;;
  df <- label_encoder df ;;
  Ok (drop dropped_cols df).

Definition indexers : list stage :=
  map (fun c => StringIndexer c (c ++ "_indexed")) categorical_cols.

Definition indexed_cols : list string :=
  map (fun c => c ++ "_indexed") categorical_cols.

Definition num_assembler : stage :=
  VectorAssembler numerical_cols "num_features_unscaled".

Definition num_scaler : stage :=
  StandardScaler "num_features_unscaled" "num_features_scaled".

Definition transform_pipeline : list stage :=
  (indexers ++ [num_assembler; num_scaler])%list.

Definition final_bq_cols : list string :=
  (["HadHeartAttack_Numeric"] ++ indexed_cols ++ numerical_cols)%list.

(** Sections 3 and 4 of [main] up to the write: fit, transform, select.
    These lines stand outside both [try] blocks. *)
Definition ml_transform (E : Engine) (df : DataFrame) : result DataFrame :=
  fitted <- pipeline_fit E transform_pipeline df ;;
  processed_df <- pipeline_transform E fitted df ;;
  select final_bq_cols processed_df.

(** What a run of [main] does: the lines printed, the exception that left
    [main] if one did, the DataFrame on which [save] was called, whether the
    table was written, and whether [spark.stop()] was reached. *)
Record Run := mkRun {
  stdout : list printed;
  raised : option error;
  handed : option DataFrame;
  written : bool;
  stopped : bool
}.

(** [main()].  The session is taken as created; the first [try] covers the
    read and the cleaning, the second the write, and the lines between
    them are not guarded. *)
Definition main (E : Engine) (path : string) : Run :=
  match (df <- read_csv E path ;; clean E df) with
  | Err e =>
      mkRun [SessionInitialized; ErrorDuringProcessing (str_of_error e)]
            None None false true
  | Ok df =>
      match ml_transform E df with
      | Err e => mkRun [SessionInitialized] (Some e) None false false
      | Ok final_df_bq =>
          match bq_save E BIGQUERY_OUTPUT_TABLE final_df_bq with
          | None =>
              mkRun [SessionInitialized; WroteSilverLayer]
                    None (Some final_df_bq) true true
          | Some e =>
              mkRun [SessionInitialized; ErrorCouldNotWrite (str_of_error e)]
                    None (Some final_df_bq) false true
          end
      end
  end.

(** The whole script on a command line. *)
Definition script (E : Engine) (argv : list string) : Run :=
  let (path, out) := configure argv in
  let r := main E path in
  mkRun (out ++ stdout r) (raised r) (handed r) (written r) (stopped r).

(** ** Notions used in the statements *)


Definition stage_output (s : stage) : string :=
  match s with
  | StringIndexer _ out => out
  | VectorAssembler _ out => out
  | StandardScaler _ out => out
  end.

(** Decidable list checks on column names. *)
Definition mem (c : string) (l : list string) : bool := existsb (String.eqb c) l.


Definition disjointb (l1 l2 : list string) : bool :=
  forallb (fun c => negb (mem c l2)) l1.

(** A row with its derived column, and whether the filter keeps it. *)
Definition with_bmi (r : Row) : Row :=
  assoc_set "BMI_Calculated" (eval bmi r) r.

Definition bmi_survives (r : Row) : bool := keeps bmi_valid (with_bmi r).

(** The raw outcome is the literal [Yes]. *)
Definition is_yes (v : value) : bool :=
  match v with VStr s => String.eqb s "Yes" | _ => false end.

(** ** The categorical encoder as a whole *)






(** ** Two runs over the same data *)

(** Fit and apply every stage in turn: the fitted models and the data
    as the last of them leaves it. *)
Fixpoint fit_all (E : Engine) (stages : list stage) (df : DataFrame)
  : result (list model * DataFrame) :=
  match stages with
  | [] => Ok ([], df)
  | s :: rest =>
      m <- fit E s df ;;
      df' <- transform E m df ;;
      p <- fit_all E rest df' ;;
      Ok (m :: fst p, snd p)
  end.

Definition is_scaler (s : stage) : bool :=
  match s with StandardScaler _ _ => true | _ => false end.

Definition is_scaler_model (m : model) : bool :=
  match m with StandardScalerModel _ _ _ => true | _ => false end.

(** The same dataset, its records possibly in another order. *)
Definition df_sim (a b : DataFrame) : Prop :=
  schema a = schema b /\ Permutation (rows a) (rows b).

(** Two results fail alike or succeed with related values. *)
Definition res_rel {A B : Type} (R : A -> B -> Prop) (x : result A) (y : result B)
  : Prop :=
  match x, y with
  | Ok a, Ok b => R a b
  | Err e, Err e' => e = e'
  | _, _ => False
  end.

(** Two engines whose casts agree; the summarizer and the writer may differ. *)
Definition same_casts (E1 E2 : Engine) : Prop :=
  (forall s, parse_double E1 s = parse_double E2 s) /\
  (forall d, show_double E1 d = show_double E2 d).

(** What two runs over the same data agree on. *)
Definition same_outcome (r1 r2 : Run) : Prop :=
  raised r1 = raised r2 /\
  match handed r1, handed r2 with
  | Some o1, Some o2 =>
      columns o1 = columns o2 /\
      List.length (rows o1) = List.length (rows o2) /\
      Permutation (rows o1) (rows o2)
  | None, None => True
  | _, _ => False
  end.

(** ** Sample data *)

(** [m * 2^e] as a double. *)
Definition dbl (m e : Z) : double := binary_normalize 53 1024 m e false.

Definition sample_schema : list (string * dtype) :=
  (("State", TString) :: map (fun c => (c, TString)) categorical_cols ++
   [ ("PhysicalHealthDays", TDouble); ("MentalHealthDays", TDouble);
     ("SleepHours", TDouble); ("HadHeartAttack", TString);
     ("HeightInMeters", TDouble); ("WeightInKilograms", TDouble);
     ("BMI", TDouble) ])%list.

(** A survey record; every categorical answer but [Sex] is ["No"]. *)
Definition sample_row (sex outcome height weight : value) : Row :=
  (("State", VStr "Alabama") :: ("Sex", sex) ::
   map (fun c => (c, VStr "No")) (tl categorical_cols) ++
   [ ("PhysicalHealthDays", VDouble (dbl 4 0)); ("MentalHealthDays", VDouble (dbl 0 0));
     ("SleepHours", VDouble (dbl 8 0)); ("HadHeartAttack", outcome);
     ("HeightInMeters", height); ("WeightInKilograms", weight);
     ("BMI", VDouble (dbl 27 0)) ])%list.

Definition sample_df : DataFrame :=
  mkDF sample_schema
    [ sample_row (VStr "Female") (VStr "No") (VDouble (dbl 7 (-2))) (VDouble (dbl 80 0));
      sample_row (VStr "Male") (VStr "Yes") (VDouble (dbl 2 0)) (VDouble (dbl 100 0));
      sample_row (VStr "Male") (VStr "No") VNull (VDouble (dbl 70 0));
      sample_row VNull (VStr "No") (VDouble (dbl 2 0)) (VDouble (dbl 90 0)) ].

(** An engine over one stored file. *)
Definition sample_engine (file : result DataFrame) (save : option error) : Engine :=
  mkEngine (fun _ => None) (fun _ => "1.0")
           (fun vs => map (fun _ => dbl 1 0) (hd [] vs))
           (fun _ => file) (fun _ _ => save).

(** Weight [2^1023] kg and height [0.5] m: finite operands, infinite BMI. *)
Definition overflow_df : DataFrame :=
  mkDF sample_schema
    [ sample_row (VStr "Male") (VStr "No") (VDouble (dbl 1 (-1))) (VDouble (dbl 1 1023)) ].

(** The sample file without its [Sex] column. *)
Definition no_sex_df : DataFrame := drop ["Sex"] sample_df.

(** A run over the sample file, and the DataFrame it hands to the sink. *)
Definition sample_run : Run := main (sample_engine (Ok sample_df) None) GCS_FILE_PATH.

Definition sample_output : DataFrame :=
  Eval vm_compute in
    match handed sample_run with
    | Some out => out
    | None => mkDF [] []
    end.

Definition sample_labelled : DataFrame :=
  Eval vm_compute in
    match label_encoder sample_df with
    | Ok df => df
    | Err _ => mkDF [] []
    end.

Definition overflow_derived : DataFrame :=
  Eval vm_compute in
    match feature_deriver overflow_df with
    | Ok df => df
    | Err _ => mkDF [] []
    end.

(** Three assembled vectors whose only component is the constant [5.0]. *)
Definition constant5_df : DataFrame :=
  mkDF [("num_features_unscaled", TVector)]
       [ [("num_features_unscaled", VVec [dbl 5 0])];
         [("num_features_unscaled", VVec [dbl 5 0])];
         [("num_features_unscaled", VVec [dbl 5 0])] ].

(** An engine whose summarizer reports the deviation of a constant column. *)
Definition constant_engine : Engine :=
  mkEngine (fun _ => None) (fun _ => "5.0")
           (fun vs => map (fun _ => S754_zero false) (hd [] vs))
           (fun _ => Ok constant5_df) (fun _ _ => None).

Definition constant5_scaled : DataFrame :=
  Eval vm_compute in
    match m <- fit constant_engine num_scaler constant5_df ;;
          transform constant_engine m constant5_df with
    | Ok df => df
    | Err _ => mkDF [] []
    end.

Definition sample_derived : DataFrame :=
  Eval vm_compute in
    match feature_deriver sample_df with
    | Ok df => df
    | Err _ => mkDF [] []
    end.




(** The sample file with its records in the opposite order, and an engine
    over it whose summarizer reports other deviations. *)
Definition sample_df_rev : DataFrame := mkDF sample_schema (rev (rows sample_df)).

Definition other_engine (file : result DataFrame) : Engine :=
  mkEngine (fun _ => None) (fun _ => "1.0")
           (fun vs => map (fun _ => dbl 3 0) (hd [] vs))
           (fun _ => file) (fun _ _ => None).

Definition sample_output_rev : DataFrame :=
  Eval vm_compute in
    match handed (main (other_engine (Ok sample_df_rev)) GCS_FILE_PATH) with
    | Some out => out
    | None => mkDF [] []
    end.

(** ** Notions used in the further properties *)

(** The keys after [assoc_set]: unchanged when the key is there, else the
    key is appended. *)
Definition add_col (c : string) (l : list string) : list string :=
  if mem c l then l else (l ++ [c])%list.


(** The columns a stage reads. *)
Definition stage_inputs (s : stage) : list string :=
  match s with
  | StringIndexer c _ => [c]
  | VectorAssembler cs _ => cs
  | StandardScaler c _ => [c]
  end.

(** A record through the two casts, and through the whole cleaning. *)
Definition normalize_row (E : Engine) (r : Row) : Row :=
  assoc_set "HeightInMeters" (to_double (parse_double E) (get "HeightInMeters" r))
    (assoc_set "WeightInKilograms"
       (to_double (parse_double E) (get "WeightInKilograms" r)) r).

Definition drop_row (names : list string) (r : Row) : Row :=
  fold_left (fun s c => assoc_del c s) names r.

Definition cleaned_row (E : Engine) (r : Row) : Row :=
  let r1 := with_bmi (normalize_row E r) in
  drop_row dropped_cols
    (assoc_set "HadHeartAttack_Numeric"
       (VInt (if is_yes (get "HadHeartAttack" r1) then 1 else 0)) r1).





(** A file whose weight column is text and whose height column is integer,
    with an engine that parses the text [80]. *)
Definition text_df : DataFrame :=
  mkDF [ ("WeightInKilograms", TString); ("HeightInMeters", TInt);
         ("HadHeartAttack", TString) ]
       [ [ ("WeightInKilograms", VStr "80"); ("HeightInMeters", VInt 2);
           ("HadHeartAttack", VStr "Yes") ];
         [ ("WeightInKilograms", VStr "n/a"); ("HeightInMeters", VInt 2);
           ("HadHeartAttack", VStr "No") ] ].

Definition text_engine : Engine :=
  mkEngine (fun s => if String.eqb s "80" then Some (dbl 80 0) else None)
           (fun _ => "1.0")
           (fun vs => map (fun _ => dbl 1 0) (hd [] vs))
           (fun _ => Ok text_df) (fun _ _ => None).


Definition text_cleaned : DataFrame :=
  Eval vm_compute in
    match clean text_engine text_df with
    | Ok df => df
    | Err _ => mkDF [] []
    end.


Definition sample_cleaned : DataFrame :=
  Eval vm_compute in
    match clean (sample_engine (Ok sample_df) None) sample_df with
    | Ok df => df
    | Err _ => mkDF [] []
    end.


(** The column types a stage accepts as input. *)
Definition stage_accepts (s : stage) (ty : dtype) : bool :=
  match s with
  | StringIndexer _ _ => match ty with TVector => false | _ => true end
  | VectorAssembler _ _ => numeric_or_vector ty
  | StandardScaler _ _ => match ty with TVector => true | _ => false end
  end.

(** An engine over one stored file whose writes fail. *)
Definition failing_sink_run : Run :=
  main (sample_engine (Ok sample_df) (Some (WriteFailed BIGQUERY_OUTPUT_TABLE)))
       GCS_FILE_PATH.


Definition sample_fitted : list model :=
  Eval vm_compute in
    match pipeline_fit (sample_engine (Ok sample_df) None) transform_pipeline
            sample_cleaned with
    | Ok ms => ms
    | Err _ => []
    end.

Definition sample_processed : DataFrame :=
  Eval vm_compute in
    match pipeline_transform (sample_engine (Ok sample_df) None) sample_fitted
            sample_cleaned with
    | Ok df => df
    | Err _ => mkDF [] []
    end.




(** * Properties *)

(** ** Association lists and results *)

Lemma bind_Ok {A B : Type} (m : result A) (k : A -> result B) (b : B) :
  bind m k = Ok b -> exists a, m = Ok a /\ k a = Ok b.
Proof.
  destruct m as [a|e]; simpl; intros H.
  - exists a. split; [reflexivity | exact H].
  - discriminate H.
Qed.

Ltac inv_bind H :=
  let a := fresh "a" in
  let Ha := fresh "Ha" in
  apply bind_Ok in H; destruct H as [a [Ha H]].

Ltac inv_bind_as H a Ha :=
  apply bind_Ok in H; destruct H as [a [Ha H]].

Lemma assoc_get_set_same {A : Type} (k : string) (a : A) (l : list (string * A)) :
  assoc_get k (assoc_set k a l) = Some a.
Proof.
  induction l as [|[k' a'] l IH]; simpl.
  - rewrite String.eqb_refl. reflexivity.
  - destruct (String.eqb k k') eqn:Hk; simpl.
    + rewrite String.eqb_refl. reflexivity.
    + rewrite Hk. exact IH.
Qed.

Lemma assoc_get_set_other {A : Type} (c k : string) (a : A) (l : list (string * A)) :
  c <> k -> assoc_get c (assoc_set k a l) = assoc_get c l.
Proof.
  intros Hne. induction l as [|[k' a'] l IH]; simpl.
  - destruct (String.eqb c k) eqn:Hck; [|reflexivity].
    apply String.eqb_eq in Hck. contradiction.
  - destruct (String.eqb k k') eqn:Hk; simpl.
    + apply String.eqb_eq in Hk. subst k'.
      destruct (String.eqb c k) eqn:Hck; [|reflexivity].
      apply String.eqb_eq in Hck. contradiction.
    + destruct (String.eqb c k'); [reflexivity | exact IH].
Qed.

Lemma get_set_same (k : string) (v : value) (r : Row) :
  get k (assoc_set k v r) = v.
Proof. unfold get. rewrite assoc_get_set_same. reflexivity. Qed.

Lemma get_set_other (c k : string) (v : value) (r : Row) :
  c <> k -> get c (assoc_set k v r) = get c r.
Proof. intros H. unfold get. rewrite assoc_get_set_other by exact H. reflexivity. Qed.



(** ** The projection of [select] *)

Lemma select_schema_names (names : list string) (sch : list (string * dtype))
  (s : list (string * dtype)) :
  fold_right
    (fun c k =>
       match assoc_get c sch with
       | Some ty => s <- k ;; Ok ((c, ty) :: s)
       | None => Err (ColumnNotFound c)
       end) (Ok []) names = Ok s ->
  map fst s = names.
Proof.
  revert s. induction names as [|c names IH]; simpl; intros s H.
  - inversion H. reflexivity.
  - destruct (assoc_get c sch) as [ty|]; [|discriminate].
    inv_bind H. inversion H. subst s. simpl. f_equal. apply IH. exact Ha.
Qed.

Lemma select_columns (names : list string) (df out : DataFrame) :
  select names df = Ok out -> columns out = names.
Proof.
  unfold select. intros H. inv_bind H. inversion H. subst out.
  unfold columns. simpl. eapply select_schema_names. exact Ha.
Qed.

Lemma select_rows (names : list string) (df out : DataFrame) :
  select names df = Ok out ->
  rows out = map (fun r => map (fun c => (c, get c r)) names) (rows df).
Proof.
  unfold select. intros H. inv_bind H. inversion H. reflexivity.
Qed.


(** ** The structure of a run *)

Lemma main_handed (E : Engine) (path : string) (out : DataFrame) :
  handed (main E path) = Some out ->
  exists df0 df, read_csv E path = Ok df0 /\ clean E df0 = Ok df /\
                 ml_transform E df = Ok out.
Proof.
  unfold main.
  destruct (read_csv E path) as [df0|e0] eqn:Hr; simpl; [|discriminate].
  destruct (clean E df0) as [df|e1] eqn:Hc; simpl; [|discriminate].
  destruct (ml_transform E df) as [final|e2] eqn:Hm; simpl; [|discriminate].
  destruct (bq_save E BIGQUERY_OUTPUT_TABLE final); simpl; intros H;
    inversion H; subst; exists df0, df; auto.
Qed.

Lemma ml_transform_inv (E : Engine) (df out : DataFrame) :
  ml_transform E df = Ok out ->
  exists fitted processed,
    pipeline_fit E transform_pipeline df = Ok fitted /\
    pipeline_transform E fitted df = Ok processed /\
    select final_bq_cols processed = Ok out.
Proof.
  unfold ml_transform. intros H. inv_bind H. inv_bind H.
  exists a, a0. auto.
Qed.

Lemma ml_transform_columns (E : Engine) (df out : DataFrame) :
  ml_transform E df = Ok out -> columns out = final_bq_cols.
Proof.
  intros H. destruct (ml_transform_inv _ _ _ H) as [fitted [processed [_ [_ Hs]]]].
  eapply select_columns. exact Hs.
Qed.

Lemma select_row_names (names : list string) (df out : DataFrame) :
  select names df = Ok out -> forall r, In r (rows out) -> map fst r = names.
Proof.
  intros H r Hin. rewrite (select_rows _ _ _ H) in Hin.
  apply in_map_iff in Hin. destruct Hin as [r0 [Hp _]]. subst r.
  rewrite map_map. apply map_id.
Qed.

(** ** Command line *)

(** C10: only [sys.argv[1]] is consulted.  With two or more positional
    arguments the first one becomes the source path, whatever string it is,
    and the others change nothing: neither the path nor what is printed nor
    the run that follows.  Without a positional argument the default path
    is used. *)
Theorem cli_first_argument_only :
  (forall (prog a : string) (rest : list string),
      configure (prog :: a :: rest) = (a, [UsingPathFromCommandLine a])) /\
  (forall (prog a : string) (rest : list string),
      configure (prog :: a :: rest) = configure [prog; a]) /\
  (forall (E : Engine) (prog a : string) (rest : list string),
      script E (prog :: a :: rest) = script E [prog; a]) /\
  (forall prog : string, configure [prog] = (GCS_FILE_PATH, [])) /\
  configure [] = (GCS_FILE_PATH, []).
Proof.
  repeat split; intros; reflexivity.
Qed.

(** ** Column names *)

Lemma mem_In (c : string) (l : list string) : mem c l = true <-> In c l.
Proof.
  unfold mem. rewrite existsb_exists. split.
  - intros [x [Hx He]]. apply String.eqb_eq in He. subst x. exact Hx.
  - intros H. exists c. split; [exact H | apply String.eqb_refl].
Qed.

Lemma mem_false (c : string) (l : list string) : mem c l = false -> ~ In c l.
Proof.
  intros H Hin. apply mem_In in Hin. congruence.
Qed.


Lemma disjointb_spec (l1 l2 : list string) :
  disjointb l1 l2 = true -> forall c, In c l1 -> ~ In c l2.
Proof.
  unfold disjointb. rewrite forallb_forall. intros H c Hc.
  apply mem_false. apply negb_true_iff. apply H. exact Hc.
Qed.

(** ** Stages keep the columns they do not write *)








(** ** The projected output *)


Lemma final_bq_cols_In (c : string) :
  In c final_bq_cols <->
  c = "HadHeartAttack_Numeric" \/
  (exists k, In k categorical_cols /\ c = k ++ "_indexed") \/
  In c numerical_cols.
Proof.
  unfold final_bq_cols, indexed_cols.
  rewrite !in_app_iff, in_map_iff.
  assert (Hl : In c ["HadHeartAttack_Numeric"] <-> c = "HadHeartAttack_Numeric").
  { simpl. split; [intros [H | []]; auto | auto]. }
  rewrite Hl.
  split.
  - intros [H | [[k [Hk Hin]] | H]]; [left; auto | right; left | right; right; exact H].
    exists k. split; [exact Hin | symmetry; exact Hk].
  - intros [H | [[k [Hin Hk]] | H]]; [left; auto | right; left | right; right; exact H].
    exists k. split; [symmetry; exact Hk | exact Hin].
Qed.




(** C9: the columns of the persisted table come in one fixed order: the
    label, then the 32 index columns in the order of the categorical list,
    then the numerical columns, the derived BMI column last. *)
Theorem output_column_order (E : Engine) (path : string) (out : DataFrame) :
  handed (main E path) = Some out ->
  columns out =
    [ "HadHeartAttack_Numeric";
      "Sex_indexed"; "GeneralHealth_indexed"; "LastCheckupTime_indexed";
      "PhysicalActivities_indexed"; "RemovedTeeth_indexed"; "HadAngina_indexed";
      "HadStroke_indexed"; "HadAsthma_indexed"; "HadSkinCancer_indexed";
      "HadCOPD_indexed"; "HadDepressiveDisorder_indexed";
      "HadKidneyDisease_indexed"; "HadArthritis_indexed"; "HadDiabetes_indexed";
      "DeafOrHardOfHearing_indexed"; "BlindOrVisionDifficulty_indexed";
      "DifficultyConcentrating_indexed"; "DifficultyWalking_indexed";
      "DifficultyDressingBathing_indexed"; "DifficultyErrands_indexed";
      "SmokerStatus_indexed"; "ECigaretteUsage_indexed"; "ChestScan_indexed";
      "RaceEthnicityCategory_indexed"; "AgeCategory_indexed";
      "AlcoholDrinkers_indexed"; "HIVTesting_indexed"; "FluVaxLast12_indexed";
      "PneumoVaxEver_indexed"; "TetanusLast10Tdap_indexed";
      "HighRiskLastYear_indexed"; "CovidPos_indexed";
      "PhysicalHealthDays"; "MentalHealthDays"; "SleepHours"; "BMI_Calculated" ] /\
  columns out = "HadHeartAttack_Numeric" :: (indexed_cols ++ numerical_cols)%list /\
  indexed_cols = map (fun c => c ++ "_indexed") categorical_cols /\
  List.length categorical_cols = 32 /\
  List.length (columns out) = 37 /\
  (forall r, In r (rows out) -> map fst r = columns out).
Proof.
  intros H. destruct (main_handed _ _ _ H) as [df0 [df [Hr [Hc Hm]]]].
  rewrite (ml_transform_columns _ _ _ Hm).
  split; [vm_compute; reflexivity|]. split; [reflexivity|].
  split; [reflexivity|]. split; [reflexivity|].
  split; [vm_compute; reflexivity|].
  intros r Hin.
  destruct (ml_transform_inv _ _ _ Hm) as [fitted [processed [_ [_ Hs]]]].
  eapply select_row_names; eassumption.
Qed.

Lemma output_column_order_witness :
  handed (main (sample_engine (Ok sample_df) None) GCS_FILE_PATH) = Some sample_output /\
  List.length (columns sample_output) = 37 /\
  nth 0 (columns sample_output) "" = "HadHeartAttack_Numeric" /\
  nth 1 (columns sample_output) "" = "Sex_indexed" /\
  nth 36 (columns sample_output) "" = "BMI_Calculated".
Proof.
  assert (H : handed (main (sample_engine (Ok sample_df) None) GCS_FILE_PATH)
              = Some sample_output) by (vm_compute; reflexivity).
  split; [exact H|].
  destruct (output_column_order _ _ _ H) as [Hcols [_ [_ [_ [Hlen _]]]]].
  split; [exact Hlen|]. rewrite Hcols. repeat split; reflexivity.
Defined.

(** ** Label encoder *)

Lemma withColumn_inv (name : string) (ty : dtype) (e : Column value)
  (df df' : DataFrame) :
  withColumn name ty e df = Ok df' ->
  schema df' = assoc_set name ty (schema df) /\
  rows df' = map (fun r => assoc_set name (eval e r) r) (rows df).
Proof.
  unfold withColumn. intros H. inv_bind H. inversion H. simpl. auto.
Qed.

Lemma is_yes_iff (v : value) : is_yes v = true <-> v = VStr "Yes".
Proof.
  destruct v as [|s|z|d|ds]; simpl; try (split; [discriminate | discriminate]).
  rewrite String.eqb_eq. split; [intros ->; reflexivity | intros H; inversion H; reflexivity].
Qed.

Lemma label_value (r : Row) :
  eval (when_otherwise (eq_lit (col "HadHeartAttack") "Yes") 1 0) r =
  VInt (if is_yes (get "HadHeartAttack" r) then 1 else 0).
Proof.
  simpl. destruct (get "HadHeartAttack" r) as [|s|z|d|ds]; simpl; try reflexivity.
  destruct (String.eqb s "Yes"); reflexivity.
Qed.

(** C6: the label column is 1 exactly on the records whose raw outcome is
    the string [Yes], compared byte for byte, and 0 on every other record:
    a null, [No], the empty string, [yes]; the encoder changes no other
    column; and the output handed to the sink has no column named after
    the raw outcome. *)
Theorem label_encoder_contract :
  (forall df df', label_encoder df = Ok df' ->
     rows df' =
     map (fun r => assoc_set "HadHeartAttack_Numeric"
                     (VInt (if is_yes (get "HadHeartAttack" r) then 1 else 0)) r)
         (rows df)) /\
  (forall r (z : Z),
      get "HadHeartAttack_Numeric" (assoc_set "HadHeartAttack_Numeric" (VInt z) r)
      = VInt z) /\
  (forall v, is_yes v = true <-> v = VStr "Yes") /\
  is_yes VNull = false /\ is_yes (VStr "No") = false /\
  is_yes (VStr "") = false /\ is_yes (VStr "yes") = false /\
  (forall E path out, handed (main E path) = Some out ->
                      ~ In "HadHeartAttack" (columns out)).
Proof.
  split.
  { intros df df' H. unfold label_encoder in H.
    apply withColumn_inv in H. destruct H as [_ H]. rewrite H.
    apply map_ext. intros r. rewrite label_value. reflexivity. }
  split; [intros r z; apply get_set_same|].
  split; [exact is_yes_iff|].
  repeat (split; [reflexivity|]).
  intros E path out H. destruct (main_handed _ _ _ H) as [df0 [df [_ [_ Hm]]]].
  rewrite (ml_transform_columns _ _ _ Hm).
  apply mem_false. vm_compute. reflexivity.
Qed.

Lemma label_encoder_contract_witness :
  label_encoder sample_df = Ok sample_labelled /\
  map (get "HadHeartAttack") (rows sample_df) =
    [VStr "No"; VStr "Yes"; VStr "No"; VStr "No"] /\
  map (get "HadHeartAttack_Numeric") (rows sample_labelled) =
    [VInt 0; VInt 1; VInt 0; VInt 0] /\
  handed (main (sample_engine (Ok sample_df) None) GCS_FILE_PATH) = Some sample_output /\
  ~ In "HadHeartAttack" (columns sample_output).
Proof.
  assert (H : label_encoder sample_df = Ok sample_labelled) by (vm_compute; reflexivity).
  assert (Hm : handed (main (sample_engine (Ok sample_df) None) GCS_FILE_PATH)
               = Some sample_output) by (vm_compute; reflexivity).
  destruct label_encoder_contract as [Hrows [_ [_ [_ [_ [_ [_ Hcol]]]]]]].
  split; [exact H|]. split; [vm_compute; reflexivity|].
  split; [rewrite (Hrows _ _ H); vm_compute; reflexivity|].
  split; [exact Hm | exact (Hcol _ _ _ Hm)].
Defined.

(** ** Feature deriver *)

Lemma filter_map_comm {A B : Type} (f : A -> B) (p : B -> bool) (l : list A) :
  filter p (map f l) = map f (filter (fun x => p (f x)) l).
Proof.
  induction l as [|x l IH]; simpl; [reflexivity|].
  destruct (p (f x)); simpl; rewrite IH; reflexivity.
Qed.

Lemma filter_df_inv (c : Column (option bool)) (df df' : DataFrame) :
  filter_df c df = Ok df' ->
  schema df' = schema df /\ rows df' = filter (keeps c) (rows df).
Proof.
  unfold filter_df. intros H. inv_bind H. inversion H. simpl. auto.
Qed.

Lemma feature_deriver_rows (df out : DataFrame) :
  feature_deriver df = Ok out ->
  rows out = map with_bmi (filter bmi_survives (rows df)).
Proof.
  unfold feature_deriver. intros H. inv_bind H.
  apply withColumn_inv in Ha. destruct Ha as [_ Hrows].
  apply filter_df_inv in H. destruct H as [_ H].
  rewrite H, Hrows, filter_map_comm. reflexivity.
Qed.

Lemma bmi_value (r : Row) :
  get "BMI_Calculated" (with_bmi r) =
  div_value (get "WeightInKilograms" r) (pow2_value (get "HeightInMeters" r)).
Proof. unfold with_bmi. rewrite get_set_same. reflexivity. Qed.

Lemma bmi_survives_eq (r : Row) :
  bmi_survives r =
  match div_value (get "WeightInKilograms" r) (pow2_value (get "HeightInMeters" r)) with
  | VDouble d => negb (is_nan d)
  | _ => false
  end.
Proof.
  unfold bmi_survives, keeps, bmi_valid. simpl eval.
  rewrite bmi_value.
  destruct (get "WeightInKilograms" r) as [|s|z|w|ds]; simpl; try reflexivity.
  destruct (get "HeightInMeters" r) as [|s|z|h|ds]; simpl; try reflexivity.
  destruct (is_zero (dmul h h)); simpl; [reflexivity|].
  destruct (is_nan (ddiv w (dmul h h))); reflexivity.
Qed.

Lemma bmi_survives_iff (r : Row) :
  bmi_survives r = true <->
  exists w h, get "WeightInKilograms" r = VDouble w /\
              get "HeightInMeters" r = VDouble h /\
              is_zero (dmul h h) = false /\
              is_nan (ddiv w (dmul h h)) = false.
Proof.
  rewrite bmi_survives_eq. split.
  - destruct (get "WeightInKilograms" r) as [|s|z|w|ds]; simpl; try discriminate.
    destruct (get "HeightInMeters" r) as [|s|z|h|ds]; simpl; try discriminate.
    destruct (is_zero (dmul h h)) eqn:Hz; [discriminate|].
    intros H. exists w, h. repeat split; try assumption.
    apply negb_true_iff. exact H.
  - intros [w [h [Hw [Hh [Hz Hn]]]]]. rewrite Hw, Hh. simpl. rewrite Hz, Hn.
    reflexivity.
Qed.

Lemma to_double_shape (parse : string -> option double) (v : value) :
  to_double parse v = VNull \/ exists d, to_double parse v = VDouble d.
Proof.
  destruct v as [|s|z|d|ds]; simpl; eauto.
  destruct (parse s); eauto.
Qed.

Lemma schema_normalizer_rows (E : Engine) (df0 df : DataFrame) :
  schema_normalizer E df0 = Ok df ->
  forall r, In r (rows df) ->
  (get "WeightInKilograms" r = VNull \/ exists w, get "WeightInKilograms" r = VDouble w) /\
  (get "HeightInMeters" r = VNull \/ exists h, get "HeightInMeters" r = VDouble h).
Proof.
  unfold schema_normalizer. intros H r Hr. inv_bind H.
  apply withColumn_inv in Ha. destruct Ha as [_ H1].
  apply withColumn_inv in H. destruct H as [_ H2].
  rewrite H2, H1, map_map in Hr. apply in_map_iff in Hr.
  destruct Hr as [r0 [Hr0 _]]. subst r. split.
  - rewrite get_set_other by discriminate. rewrite get_set_same.
    apply to_double_shape.
  - rewrite get_set_same. apply to_double_shape.
Qed.

(** C1, as the code has it: the derived column is weight / height^2; a
    record is kept exactly when weight and height are both present, the
    squared height is not zero and the quotient is not NaN, so it is
    excluded when an operand is null, when the height is zero (or so small
    that its square is zero) and when the quotient is NaN.  An infinite
    quotient is kept.  Excluded records are removed from the output, and
    every surviving record carries weight / height^2. *)
Theorem feature_deriver_contract (df out : DataFrame) :
  feature_deriver df = Ok out ->
  rows out = map with_bmi (filter bmi_survives (rows df)) /\
  (forall r, bmi_survives r = true <->
             exists w h, get "WeightInKilograms" r = VDouble w /\
                         get "HeightInMeters" r = VDouble h /\
                         is_zero (dmul h h) = false /\
                         is_nan (ddiv w (dmul h h)) = false) /\
  (forall r w h, bmi_survives r = true ->
                 get "WeightInKilograms" r = VDouble w ->
                 get "HeightInMeters" r = VDouble h ->
                 get "BMI_Calculated" (with_bmi r) = VDouble (ddiv w (dmul h h))) /\
  (forall r, get "WeightInKilograms" r = VNull \/
             get "HeightInMeters" r = VNull \/
             (exists s, get "HeightInMeters" r = VDouble (S754_zero s)) ->
             bmi_survives r = false) /\
  (forall r', In r' (rows out) ->
              exists d, get "BMI_Calculated" r' = VDouble d /\ is_nan d = false) /\
  (forall E df0, schema_normalizer E df0 = Ok df ->
     forall r, In r (rows df) ->
     (get "WeightInKilograms" r = VNull \/ exists w, get "WeightInKilograms" r = VDouble w) /\
     (get "HeightInMeters" r = VNull \/ exists h, get "HeightInMeters" r = VDouble h)).
Proof.
  intros H. pose proof (feature_deriver_rows _ _ H) as Hrows.
  split; [exact Hrows|].
  split; [exact bmi_survives_iff|].
  split.
  { intros r w h Hs Hw Hh. rewrite bmi_value, Hw, Hh. simpl.
    apply bmi_survives_iff in Hs. destruct Hs as [w' [h' [Hw' [Hh' [Hz _]]]]].
    rewrite Hh in Hh'. inversion Hh'. subst h'. rewrite Hz. reflexivity. }
  split.
  { intros r Hc. rewrite bmi_survives_eq.
    destruct Hc as [Hw | [Hh | [s Hh]]].
    - rewrite Hw. reflexivity.
    - rewrite Hh. destruct (get "WeightInKilograms" r); reflexivity.
    - rewrite Hh. destruct (get "WeightInKilograms" r); reflexivity. }
  split.
  { intros r' Hr'. rewrite Hrows in Hr'. apply in_map_iff in Hr'.
    destruct Hr' as [r [Heq Hr]]. apply filter_In in Hr. destruct Hr as [_ Hs].
    subst r'. rewrite bmi_survives_eq in Hs. rewrite bmi_value.
    destruct (div_value (get "WeightInKilograms" r) (pow2_value (get "HeightInMeters" r)))
      as [|s|z|d|ds]; try discriminate.
    exists d. split; [reflexivity|]. apply negb_true_iff. exact Hs. }
  intros E df0 Hn. eapply schema_normalizer_rows. exact Hn.
Qed.

Lemma feature_deriver_contract_witness :
  feature_deriver sample_df = Ok sample_derived /\
  rows sample_derived = map with_bmi (filter bmi_survives (rows sample_df)) /\
  List.length (rows sample_df) = 4 /\
  List.length (rows sample_derived) = 3.
Proof.
  assert (H : feature_deriver sample_df = Ok sample_derived) by (vm_compute; reflexivity).
  split; [exact H|].
  split; [exact (proj1 (feature_deriver_contract _ _ H))|].
  split; reflexivity.
Defined.

(** C1 as stated fails: a record of weight [2^1023] and height [0.5], both
    finite and the height not zero, has the infinite quotient [2^1025],
    yet the filter keeps it. *)
Lemma infinite_bmi_is_kept :
  ~ (forall out r,
        feature_deriver overflow_df = Ok out -> In r (rows overflow_df) ->
        (In (with_bmi r) (rows out) <->
         exists w h, get "WeightInKilograms" r = VDouble w /\
                     get "HeightInMeters" r = VDouble h /\
                     is_zero h = false /\
                     is_finite (ddiv w (dmul h h)) = true)).
Proof.
  intros C.
  assert (Hd : feature_deriver overflow_df = Ok overflow_derived)
    by (vm_compute; reflexivity).
  assert (Hr : In (hd [] (rows overflow_df)) (rows overflow_df))
    by (left; reflexivity).
  destruct (C _ _ Hd Hr) as [Hkept _].
  destruct Hkept as [w [h [Hw [Hh [_ Hf]]]]].
  - left. vm_compute. reflexivity.
  - vm_compute in Hw. vm_compute in Hh. inversion Hw. inversion Hh. subst w h.
    vm_compute in Hf. discriminate Hf.
Qed.

(** ** Numerical scaler *)

Lemma scale_factor_zero (std : double) :
  is_zero std = true -> scale_factor std = S754_zero false.
Proof. unfold scale_factor. intros ->. reflexivity. Qed.

Lemma dmul_zero_r (x : double) (s : bool) :
  is_finite x = true -> is_zero (dmul x (S754_zero s)) = true.
Proof. destruct x; simpl; intros H; try discriminate; reflexivity. Qed.

(** C3, as the code has it: for a component whose fitted standard
    deviation is exactly zero the scale factor is [0.0], not one, so with
    centering disabled a constant [5.0] becomes [0.0]; the result is defined
    and finite, never infinite or NaN, for every finite value, but the value
    is not returned unchanged. *)
Theorem scaler_zero_std_fallback :
  (forall std, is_zero std = true -> scale_factor std = S754_zero false) /\
  (forall std, is_zero std = true ->
               dmul (dbl 5 0) (scale_factor std) = S754_zero false) /\
  (forall std x, is_zero std = true -> is_finite x = true ->
                 is_zero (dmul x (scale_factor std)) = true) /\
  (forall stds v, Forall (fun s => is_zero s = true) stds ->
                  Forall (fun x => is_finite x = true) v ->
                  Forall (fun y => is_zero y = true) (scale_vector stds v)) /\
  (forall E c out stds df df',
      transform E (StandardScalerModel c out stds) df = Ok df' ->
      rows df' = map (fun r => assoc_set out (scale_value stds (get c r)) r) (rows df)).
Proof.
  split; [exact scale_factor_zero|].
  split.
  { intros std H. rewrite (scale_factor_zero _ H). reflexivity. }
  split.
  { intros std x H Hx. rewrite (scale_factor_zero _ H). apply dmul_zero_r. exact Hx. }
  split.
  { intros stds v Hs. revert v. induction Hs as [|s stds Hz Hs IH]; intros v Hv.
    - constructor.
    - destruct Hv as [|x v Hx Hv]; simpl; constructor.
      + rewrite (scale_factor_zero _ Hz). apply dmul_zero_r. exact Hx.
      + apply IH. exact Hv. }
  intros E c out stds df df' H. simpl in H. inv_bind H. inv_bind H.
  inversion H. reflexivity.
Qed.

Lemma scaler_zero_std_fallback_witness :
  is_zero (S754_zero false) = true /\ is_finite (dbl 5 0) = true /\
  scale_vector [S754_zero false] [dbl 5 0] = [S754_zero false] /\
  fit constant_engine num_scaler constant5_df =
    Ok (StandardScalerModel "num_features_unscaled" "num_features_scaled"
          [S754_zero false]) /\
  transform constant_engine
    (StandardScalerModel "num_features_unscaled" "num_features_scaled"
       [S754_zero false]) constant5_df = Ok constant5_scaled /\
  rows constant5_scaled =
    map (fun r => assoc_set "num_features_scaled"
                    (scale_value [S754_zero false] (get "num_features_unscaled" r)) r)
        (rows constant5_df).
Proof.
  destruct scaler_zero_std_fallback as [_ [H5 [_ [_ Ht]]]].
  split; [reflexivity|]. split; [reflexivity|].
  split; [unfold scale_vector; rewrite (H5 (S754_zero false) eq_refl); reflexivity|].
  split; [vm_compute; reflexivity|].
  assert (Hc : transform constant_engine
    (StandardScalerModel "num_features_unscaled" "num_features_scaled"
       [S754_zero false]) constant5_df = Ok constant5_scaled)
    by (vm_compute; reflexivity).
  split; [exact Hc | exact (Ht _ _ _ _ _ _ Hc)].
Defined.

(** C3 as stated fails: fitted on the constant column [5.0], whose standard
    deviation is zero, the scaler does not return [5.0]: every scaled
    vector is [[0.0]]. *)
Lemma constant_column_is_zeroed :
  (fitted <- fit constant_engine num_scaler constant5_df ;;
   transform constant_engine fitted constant5_df) = Ok constant5_scaled /\
  map (get "num_features_unscaled") (rows constant5_scaled) =
    [VVec [dbl 5 0]; VVec [dbl 5 0]; VVec [dbl 5 0]] /\
  map (get "num_features_scaled") (rows constant5_scaled) =
    [VVec [S754_zero false]; VVec [S754_zero false]; VVec [S754_zero false]] /\
  ~ (forall r, In r (rows constant5_scaled) ->
               get "num_features_scaled" r = get "num_features_unscaled" r).
Proof.
  split; [vm_compute; reflexivity|].
  split; [vm_compute; reflexivity|].
  split; [vm_compute; reflexivity|].
  intros C. specialize (C (hd [] (rows constant5_scaled)) (or_introl eq_refl)).
  vm_compute in C. discriminate C.
Qed.

(** ** Errors *)

(** C5 fails on the code: the fit, the transform and the projection stand
    outside both [try] blocks.  On a file without the [Sex] column the first
    indexer's fit raises; the exception leaves [main]: nothing is logged
    about it, nothing is handed to the sink and [spark.stop()] is not
    reached. *)
Theorem fit_failure_is_not_caught :
  main (sample_engine (Ok no_sex_df) None) GCS_FILE_PATH =
  mkRun [SessionInitialized] (Some (ColumnNotFound "Sex")) None false false.
Proof. vm_compute. reflexivity. Qed.

(** Failures of the read and of the cleaning steps, and failures of the
    write, are caught and logged. *)
Lemma guarded_failures_are_caught (E : Engine) (path : string) :
  (forall e, (df <- read_csv E path ;; clean E df) = Err e ->
             main E path =
             mkRun [SessionInitialized; ErrorDuringProcessing (str_of_error e)]
                   None None false true) /\
  (forall df final e,
      (df <- read_csv E path ;; clean E df) = Ok df ->
      ml_transform E df = Ok final ->
      bq_save E BIGQUERY_OUTPUT_TABLE final = Some e ->
      main E path =
      mkRun [SessionInitialized; ErrorCouldNotWrite (str_of_error e)]
            None (Some final) false true) /\
  (forall df e,
      (df <- read_csv E path ;; clean E df) = Ok df ->
      ml_transform E df = Err e ->
      raised (main E path) = Some e).
Proof.
  unfold main. split; [|split].
  - intros e H. rewrite H. reflexivity.
  - intros df final e H Hm Hs. rewrite H, Hm, Hs. reflexivity.
  - intros df e H Hm. rewrite H, Hm. reflexivity.
Qed.

(** ** The order on strings *)

Lemma ltb_lt (a b : string) : String.ltb a b = true <-> String_as_OT.lt a b.
Proof.
  rewrite <- String_as_OT.cmp_lt. unfold String.ltb, String_as_OT.cmp.
  destruct (String.compare a b); split; congruence.
Qed.

Lemma ltb_trans (a b c : string) :
  String.ltb a b = true -> String.ltb b c = true -> String.ltb a c = true.
Proof.
  rewrite !ltb_lt. apply String_as_OT.lt_trans.
Qed.

Lemma ltb_irrefl (a : string) : String.ltb a a = false.
Proof.
  destruct (String.ltb a a) eqn:H; [|reflexivity].
  apply ltb_lt in H. exfalso. exact (String_as_OT.lt_not_eq _ _ H eq_refl).
Qed.

Lemma ltb_asym (a b : string) : String.ltb a b = true -> String.ltb b a = false.
Proof.
  intros H. destruct (String.ltb b a) eqn:H'; [|reflexivity].
  pose proof (ltb_trans _ _ _ H H') as Ht. rewrite ltb_irrefl in Ht. discriminate.
Qed.

Lemma ltb_total (a b : string) :
  a <> b -> String.ltb a b = true \/ String.ltb b a = true.
Proof.
  intros Hne. unfold String.ltb. rewrite (String.compare_antisym b a).
  destruct (String.compare a b) eqn:Hc; simpl; auto.
  apply String.compare_eq_iff in Hc. contradiction.
Qed.

(** ** The order of the vocabulary *)

Lemma sortFunc_asym (a b : string * nat) :
  sortFunc a b = true -> sortFunc b a = false.
Proof.
  unfold sortFunc. destruct a as [la na], b as [lb nb]. simpl.
  destruct (Nat.eqb na nb) eqn:He.
  - apply Nat.eqb_eq in He. subst nb. rewrite Nat.eqb_refl. apply ltb_asym.
  - rewrite Nat.eqb_sym, He. rewrite Nat.ltb_lt. intros H.
    apply Nat.ltb_ge. lia.
Qed.

Lemma sortFunc_total (a b : string * nat) :
  fst a <> fst b -> sortFunc b a = false -> sortFunc a b = true.
Proof.
  unfold sortFunc. destruct a as [la na], b as [lb nb]. simpl. intros Hne.
  rewrite (Nat.eqb_sym nb na).
  destruct (Nat.eqb na nb) eqn:He.
  - intros H. destruct (ltb_total _ _ Hne) as [H1 | H1]; congruence.
  - apply Nat.eqb_neq in He. rewrite Nat.ltb_ge, Nat.ltb_lt. lia.
Qed.

Lemma sortFunc_le_trans (a b c : string * nat) :
  sortFunc b a = false -> sortFunc c b = false -> sortFunc c a = false.
Proof.
  unfold sortFunc. destruct a as [la na], b as [lb nb], c as [lc nc]. simpl.
  destruct (Nat.eqb nb na) eqn:E1; destruct (Nat.eqb nc nb) eqn:E2;
    destruct (Nat.eqb nc na) eqn:E3;
    repeat match goal with
           | H : Nat.eqb _ _ = true |- _ => apply Nat.eqb_eq in H
           | H : Nat.eqb _ _ = false |- _ => apply Nat.eqb_neq in H
           end;
    rewrite ?Nat.ltb_ge; try lia.
  intros H1 H2. destruct (String.ltb lc la) eqn:H3; [|reflexivity].
  destruct (string_dec lb la) as [->|Hne]; [congruence|].
  destruct (ltb_total _ _ Hne) as [H4 | H4]; [congruence|].
  rewrite (ltb_trans _ _ _ H3 H4) in H2. discriminate.
Qed.

(** ** Insertion sort *)

Section InsertionSort.
Context {A : Type} (lt : A -> A -> bool).
Hypothesis lt_asym : forall a b, lt a b = true -> lt b a = false.
Hypothesis le_trans :
  forall a b c, lt b a = false -> lt c b = false -> lt c a = false.

Let le (a b : A) : Prop := lt b a = false.

Lemma insert_by_perm (x : A) (l : list A) :
  Permutation (insert_by lt x l) (x :: l).
Proof.
  induction l as [|y t IH]; simpl.
  - apply Permutation_refl.
  - destruct (lt x y).
    + apply Permutation_refl.
    + apply perm_trans with (y :: x :: t).
      * apply perm_skip. exact IH.
      * apply perm_swap.
Qed.

Lemma sortWith_perm (l : list A) : Permutation (sortWith lt l) l.
Proof.
  induction l as [|x l IH]; simpl.
  - apply perm_nil.
  - apply perm_trans with (x :: sortWith lt l).
    + apply insert_by_perm.
    + apply perm_skip. exact IH.
Qed.

Lemma insert_by_sorted (x : A) (l : list A) :
  StronglySorted le l -> StronglySorted le (insert_by lt x l).
Proof.
  induction 1 as [|y t Hs IH Hy]; simpl.
  - constructor; constructor.
  - destruct (lt x y) eqn:Hxy.
    + constructor; [constructor; assumption|].
      constructor; [apply lt_asym; exact Hxy|].
      rewrite Forall_forall in *. intros z Hz.
      apply (le_trans x y z); [apply lt_asym; exact Hxy | apply Hy; exact Hz].
    + constructor; [exact IH|].
      rewrite Forall_forall in *. intros z Hz.
      apply (Permutation_in _ (insert_by_perm x t)) in Hz.
      destruct Hz as [<- | Hz]; [exact Hxy | apply Hy; exact Hz].
Qed.

Lemma sortWith_sorted (l : list A) : StronglySorted le (sortWith lt l).
Proof.
  induction l as [|x l IH]; simpl.
  - constructor.
  - apply insert_by_sorted. exact IH.
Qed.
End InsertionSort.

Section SortedUnique.
Context {A : Type} (R : A -> A -> Prop).
Hypothesis R_asym : forall a b, R a b -> R b a -> False.

Lemma sorted_perm_unique (l l' : list A) :
  StronglySorted R l -> StronglySorted R l' -> Permutation l l' -> l = l'.
Proof.
  intros Hs. revert l'. induction Hs as [|a t Hs IH Ha]; intros l' Hs' Hp.
  - apply Permutation_nil in Hp. congruence.
  - destruct Hs' as [|b t' Hs' Hb].
    + apply Permutation_sym, Permutation_nil in Hp. discriminate.
    + assert (Hab : a = b).
      { pose proof (Permutation_in a Hp (or_introl eq_refl)) as H1.
        pose proof (Permutation_in b (Permutation_sym Hp) (or_introl eq_refl)) as H2.
        destruct H1 as [H1 | H1]; [congruence|].
        destruct H2 as [H2 | H2]; [congruence|].
        rewrite Forall_forall in Ha, Hb.
        exfalso. exact (R_asym a b (Ha b H2) (Hb a H1)). }
      subst b. f_equal. apply IH; [exact Hs'|].
      eapply Permutation_cons_inv. exact Hp.
Qed.
End SortedUnique.

(** ** Counting labels *)

Lemma assoc_get_bump (k l : string) (acc : list (string * nat)) :
  assoc_get k (bump l acc) =
  if String.eqb k l
  then Some (S (match assoc_get k acc with Some n => n | None => 0 end))
  else assoc_get k acc.
Proof.
  induction acc as [|[k' n] t IH]; simpl.
  - rewrite (String.eqb_sym k l). destruct (String.eqb l k); reflexivity.
  - destruct (String.eqb k' l) eqn:Hk'; simpl.
    + apply String.eqb_eq in Hk'. subst k'.
      destruct (String.eqb k l); reflexivity.
    + destruct (String.eqb k k') eqn:Hk.
      * apply String.eqb_eq in Hk. subst k'. rewrite Hk'. reflexivity.
      * exact IH.
Qed.

Lemma bump_keys (l : string) (acc : list (string * nat)) :
  map fst (bump l acc) =
  if mem l (map fst acc) then map fst acc else (map fst acc ++ [l])%list.
Proof.
  unfold mem. induction acc as [|[k n] t IH]; simpl; [reflexivity|].
  rewrite (String.eqb_sym l k).
  destruct (String.eqb k l); simpl; [reflexivity|].
  rewrite IH. destruct (existsb (String.eqb l) (map fst t)); reflexivity.
Qed.

Lemma bump_keys_NoDup (l : string) (acc : list (string * nat)) :
  NoDup (map fst acc) -> NoDup (map fst (bump l acc)).
Proof.
  intros H. rewrite bump_keys. destruct (mem l (map fst acc)) eqn:Hm; [exact H|].
  apply mem_false in Hm.
  apply (Permutation_NoDup (l := l :: map fst acc)).
  - apply Permutation_cons_append.
  - constructor; assumption.
Qed.

Lemma count_by_value_snoc (ls : list string) (l : string) :
  count_by_value (ls ++ [l]) = bump l (count_by_value ls).
Proof. unfold count_by_value. rewrite fold_left_app. reflexivity. Qed.

Lemma count_by_value_get (ls : list string) (k : string) :
  assoc_get k (count_by_value ls) =
  match count_occ string_dec ls k with
  | 0 => None
  | S n => Some (S n)
  end.
Proof.
  induction ls as [|l ls IH] using rev_ind.
  - reflexivity.
  - rewrite count_by_value_snoc, assoc_get_bump, IH, count_occ_app. simpl.
    destruct (String.eqb k l) eqn:Hk.
    + apply String.eqb_eq in Hk. subst l.
      destruct (string_dec k k); [|contradiction].
      destruct (count_occ string_dec ls k); simpl; f_equal; lia.
    + apply String.eqb_neq in Hk.
      destruct (string_dec l k); [congruence|].
      rewrite Nat.add_0_r. reflexivity.
Qed.

Lemma count_by_value_NoDup (ls : list string) :
  NoDup (map fst (count_by_value ls)).
Proof.
  induction ls as [|l ls IH] using rev_ind.
  - constructor.
  - rewrite count_by_value_snoc. apply bump_keys_NoDup. exact IH.
Qed.


Lemma NoDup_keys_get {A : Type} (l : list (string * A)) (k : string) (a : A) :
  NoDup (map fst l) -> In (k, a) l -> assoc_get k l = Some a.
Proof.
  induction l as [|[k' a'] t IH]; simpl; intros Hnd Hin; [contradiction|].
  inversion Hnd as [|? ? Hnot Hnd']. subst.
  destruct Hin as [Heq | Hin].
  - inversion Heq. subst. rewrite String.eqb_refl. reflexivity.
  - destruct (String.eqb k k') eqn:Hk.
    + apply String.eqb_eq in Hk. subst k'. exfalso. apply Hnot.
      apply in_map_iff. exists (k, a). auto.
    + apply IH; assumption.
Qed.

Lemma count_by_value_In (ls : list string) (k : string) (n : nat) :
  In (k, n) (count_by_value ls) -> n = count_occ string_dec ls k /\ 0 < n.
Proof.
  intros H. apply NoDup_keys_get in H; [|apply count_by_value_NoDup].
  rewrite count_by_value_get in H.
  destruct (count_occ string_dec ls k); inversion H. split; lia.
Qed.

(** ** Indices *)





(** ** The fitted vocabulary *)

Lemma sorted_counts_strict (l : list (string * nat)) :
  StronglySorted (fun a b => sortFunc b a = false) l ->
  NoDup (map fst l) ->
  StronglySorted (fun a b => sortFunc a b = true) l.
Proof.
  induction 1 as [|x t Hs IH Hx]; simpl; intros Hnd.
  - constructor.
  - inversion Hnd as [|? ? Hnot Hnd']. subst. constructor; [apply IH; exact Hnd'|].
    rewrite Forall_forall in *. intros y Hy. apply sortFunc_total.
    + intros Heq. apply Hnot. rewrite Heq. apply in_map. exact Hy.
    + apply Hx. exact Hy.
Qed.

Lemma sorted_counts (ls : list string) :
  StronglySorted (fun a b => sortFunc a b = true)
                 (sortWith sortFunc (count_by_value ls)).
Proof.
  apply sorted_counts_strict.
  - apply sortWith_sorted; [exact sortFunc_asym | exact sortFunc_le_trans].
  - apply (Permutation_NoDup (l := map fst (count_by_value ls))).
    + apply Permutation_map, Permutation_sym, sortWith_perm.
    + apply count_by_value_NoDup.
Qed.









(** ** Applying the fitted indexers *)





















(** ** The vocabulary does not depend on the order of the records *)

Lemma assoc_get_Some_In {A : Type} (k : string) (a : A) (l : list (string * A)) :
  assoc_get k l = Some a -> In (k, a) l.
Proof.
  induction l as [|[k' a'] t IH]; simpl; [discriminate|].
  destruct (String.eqb k k') eqn:Hk.
  - apply String.eqb_eq in Hk. subst k'. intros H. inversion H. left. reflexivity.
  - intros H. right. apply IH. exact H.
Qed.

Lemma count_by_value_In_iff (ls : list string) (k : string) (n : nat) :
  In (k, n) (count_by_value ls) <-> n = count_occ string_dec ls k /\ 0 < n.
Proof.
  split; [apply count_by_value_In|].
  intros [Hn Hpos]. apply assoc_get_Some_In. rewrite count_by_value_get.
  destruct (count_occ string_dec ls k); [lia | congruence].
Qed.

Lemma count_by_value_perm (ls ls' : list string) :
  Permutation ls ls' -> Permutation (count_by_value ls) (count_by_value ls').
Proof.
  intros Hp. apply NoDup_Permutation.
  - eapply NoDup_map_inv. apply count_by_value_NoDup.
  - eapply NoDup_map_inv. apply count_by_value_NoDup.
  - intros [k n]. rewrite !count_by_value_In_iff.
    rewrite (proj1 (Permutation_count_occ string_dec ls ls') Hp k). reflexivity.
Qed.

Lemma sorted_counts_perm (ls ls' : list string) :
  Permutation ls ls' ->
  sortWith sortFunc (count_by_value ls) = sortWith sortFunc (count_by_value ls').
Proof.
  intros Hp. apply (sorted_perm_unique (fun a b => sortFunc a b = true)).
  - intros a b H1 H2. rewrite (sortFunc_asym _ _ H1) in H2. discriminate.
  - apply sorted_counts.
  - apply sorted_counts.
  - apply perm_trans with (count_by_value ls); [apply sortWith_perm|].
    apply perm_trans with (count_by_value ls'); [apply count_by_value_perm; exact Hp|].
    apply Permutation_sym, sortWith_perm.
Qed.

Lemma filter_some_perm {A : Type} (l l' : list (option A)) :
  Permutation l l' -> Permutation (filter_some l) (filter_some l').
Proof.
  induction 1 as [|x l l' Hp IH|x y l|l l' l'' H1 IH1 H2 IH2]; simpl.
  - apply perm_nil.
  - destruct x; [apply perm_skip|]; exact IH.
  - destruct x, y; try apply Permutation_refl. apply perm_swap.
  - eapply perm_trans; eassumption.
Qed.

Lemma filter_perm {A : Type} (p : A -> bool) (l l' : list A) :
  Permutation l l' -> Permutation (filter p l) (filter p l').
Proof.
  induction 1 as [|x l l' Hp IH|x y l|l l' l'' H1 IH1 H2 IH2]; simpl.
  - apply perm_nil.
  - destruct (p x); [apply perm_skip|]; exact IH.
  - destruct (p x), (p y); try apply Permutation_refl. apply perm_swap.
  - eapply perm_trans; eassumption.
Qed.

Lemma label_of_ext (show show' : double -> string) (v : value) :
  (forall d, show d = show' d) -> label_of show v = label_of show' v.
Proof.
  intros H. destruct v; simpl; try reflexivity. rewrite H. reflexivity.
Qed.

Lemma fit_labels_perm_inv (show show' : double -> string) (c : string)
  (rs rs' : list Row) :
  (forall d, show d = show' d) -> Permutation rs rs' ->
  fit_labels show c rs = fit_labels show' c rs'.
Proof.
  intros Hs Hp. unfold fit_labels. f_equal. apply sorted_counts_perm.
  unfold observed_labels. apply filter_some_perm.
  rewrite (map_ext (fun r => label_of show (get c r))
                   (fun r => label_of show' (get c r)))
    by (intros r; apply label_of_ext; exact Hs).
  apply Permutation_map. exact Hp.
Qed.

(** ** Operations on the same data in another order *)

Lemma bind_rel {A A' B B' : Type} (R : A -> A' -> Prop) (S : B -> B' -> Prop)
  (m : result A) (m' : result A') (k : A -> result B) (k' : A' -> result B') :
  res_rel R m m' ->
  (forall a a', R a a' -> res_rel S (k a) (k' a')) ->
  res_rel S (bind m k) (bind m' k').
Proof.
  destruct m as [a|e], m' as [a'|e']; simpl; intros H Hk; try contradiction.
  - apply Hk. exact H.
  - exact H.
Qed.

Lemma has_column_sim (c : string) (a b : DataFrame) :
  schema a = schema b -> has_column c a = has_column c b.
Proof. unfold has_column. intros ->. reflexivity. Qed.

Lemma resolve_sim (cs : list string) (a b : DataFrame) :
  schema a = schema b -> resolve cs a = resolve cs b.
Proof.
  intros H. unfold resolve. induction cs as [|c cs IH]; simpl; [reflexivity|].
  rewrite (has_column_sim c a b H), IH. reflexivity.
Qed.

Lemma check_inputs_sim (cs : list string) (ok : dtype -> bool) (a b : DataFrame) :
  schema a = schema b -> check_inputs cs ok a = check_inputs cs ok b.
Proof.
  intros H. unfold check_inputs, column_type. rewrite H. reflexivity.
Qed.

Lemma withColumn_sim (name : string) (ty : dtype) (e e' : Column value)
  (a b : DataFrame) :
  refs e = refs e' -> (forall r, eval e r = eval e' r) -> df_sim a b ->
  res_rel df_sim (withColumn name ty e a) (withColumn name ty e' b).
Proof.
  intros Hr He [Hs Hp]. unfold withColumn.
  rewrite <- Hr, (resolve_sim _ a b Hs).
  destruct (resolve (refs e) b); simpl; [|reflexivity].
  split; simpl; [rewrite Hs; reflexivity|].
  rewrite (map_ext (fun r => assoc_set name (eval e r) r)
                   (fun r => assoc_set name (eval e' r) r))
    by (intros r; rewrite He; reflexivity).
  apply Permutation_map. exact Hp.
Qed.

Lemma filter_df_sim (c : Column (option bool)) (a b : DataFrame) :
  df_sim a b -> res_rel df_sim (filter_df c a) (filter_df c b).
Proof.
  intros [Hs Hp]. unfold filter_df. rewrite (resolve_sim _ a b Hs).
  destruct (resolve (refs c) b); simpl; [|reflexivity].
  split; simpl; [exact Hs | apply filter_perm; exact Hp].
Qed.

Lemma drop_sim (names : list string) (a b : DataFrame) :
  df_sim a b -> df_sim (drop names a) (drop names b).
Proof.
  intros [Hs Hp]. split; simpl; [rewrite Hs; reflexivity|].
  apply Permutation_map. exact Hp.
Qed.

Lemma clean_sim (E1 E2 : Engine) (a b : DataFrame) :
  same_casts E1 E2 -> df_sim a b -> res_rel df_sim (clean E1 a) (clean E2 b).
Proof.
  intros [Hparse _] Hab. unfold clean.
  assert (Hcast : forall c r,
             eval (cast_double (parse_double E1) (col c)) r =
             eval (cast_double (parse_double E2) (col c)) r).
  { intros c r. simpl. destruct (get c r); simpl; try reflexivity.
    rewrite Hparse. reflexivity. }
  apply (bind_rel df_sim).
  - unfold schema_normalizer. apply (bind_rel df_sim).
    + apply withColumn_sim; [reflexivity | apply Hcast | exact Hab].
    + intros a1 b1 H1. apply withColumn_sim; [reflexivity | apply Hcast | exact H1].
  - intros a1 b1 H1. apply (bind_rel df_sim).
    + unfold feature_deriver. apply (bind_rel df_sim).
      * apply withColumn_sim; [reflexivity | reflexivity | exact H1].
      * intros a2 b2 H2. apply filter_df_sim. exact H2.
    + intros a2 b2 H2. apply (bind_rel df_sim).
      * unfold label_encoder. apply withColumn_sim; [reflexivity | reflexivity | exact H2].
      * intros a3 b3 H3. simpl. apply drop_sim. exact H3.
Qed.

Lemma index_row_ext (show show' : double -> string) (c out : string)
  (labels : list string) (r : Row) :
  (forall d, show d = show' d) ->
  index_row show c out labels r = index_row show' c out labels r.
Proof.
  intros H. unfold index_row. rewrite (label_of_ext show show' _ H). reflexivity.
Qed.

Lemma fit_sim (E1 E2 : Engine) (s : stage) (a b : DataFrame) :
  same_casts E1 E2 -> df_sim a b -> is_scaler s = false ->
  res_rel (fun m m' => m = m' /\ is_scaler_model m = false) (fit E1 s a) (fit E2 s b).
Proof.
  intros [_ Hshow] [Hs Hp] Hk. destruct s as [c out|cs out|c out]; cbn [fit].
  - rewrite (check_inputs_sim _ _ a b Hs), (has_column_sim out a b Hs).
    match goal with |- res_rel _ (bind ?m _) _ => destruct m end; simpl; [|reflexivity].
    destruct (negb (has_column out b)); simpl; [|reflexivity].
    split; [|reflexivity]. f_equal. apply fit_labels_perm_inv; assumption.
  - split; reflexivity.
  - discriminate Hk.
Qed.

Lemma transform_sim (E1 E2 : Engine) (m : model) (a b : DataFrame) :
  same_casts E1 E2 -> df_sim a b -> is_scaler_model m = false ->
  res_rel df_sim (transform E1 m a) (transform E2 m b).
Proof.
  intros [_ Hshow] [Hs Hp] Hk.
  destruct m as [c out labels|cs out|c out std]; cbn [transform].
  - rewrite (has_column_sim c a b Hs), (has_column_sim out a b Hs).
    destruct (has_column c b); [|split; assumption].
    destruct (negb (has_column out b)); simpl; [|reflexivity].
    split; simpl; [rewrite Hs; reflexivity|].
    apply filter_some_perm.
    rewrite (map_ext (index_row (show_double E1) c out labels)
                     (index_row (show_double E2) c out labels))
      by (intros r; apply index_row_ext; exact Hshow).
    apply Permutation_map. exact Hp.
  - rewrite (check_inputs_sim _ _ a b Hs), (has_column_sim out a b Hs).
    match goal with |- res_rel _ (bind ?m _) _ => destruct m end; simpl; [|reflexivity].
    destruct (negb (has_column out b)); simpl; [|reflexivity].
    split; simpl; [rewrite Hs; reflexivity|].
    apply filter_some_perm, Permutation_map. exact Hp.
  - discriminate Hk.
Qed.

Lemma fit_all_sim (E1 E2 : Engine) (stages : list stage) :
  same_casts E1 E2 -> forallb (fun s => negb (is_scaler s)) stages = true ->
  forall a b, df_sim a b ->
  res_rel (fun p q => fst p = fst q /\ df_sim (snd p) (snd q))
          (fit_all E1 stages a) (fit_all E2 stages b).
Proof.
  intros HE. induction stages as [|s rest IH]; simpl; intros Hall a b Hab.
  - split; [reflexivity | exact Hab].
  - apply andb_true_iff in Hall. destruct Hall as [Hs Hrest].
    apply negb_true_iff in Hs.
    eapply bind_rel; [apply fit_sim; eassumption|].
    intros m m' [<- Hm].
    eapply bind_rel; [apply transform_sim; eassumption|].
    intros a1 b1 H1.
    eapply bind_rel; [apply IH; assumption|].
    intros [ms d] [ms' d'] [Hms Hd]. simpl in *. subst ms'. split; [reflexivity | exact Hd].
Qed.

Lemma pipeline_fit_last (E : Engine) (s : stage) (pre : list stage) :
  is_estimator s = true ->
  forall df,
    pipeline_fit E (pre ++ [s]) df =
    (p <- fit_all E pre df ;; m <- fit E s (snd p) ;; Ok (fst p ++ [m])%list).
Proof.
  intros Hs. induction pre as [|s0 rest IH]; intros df; simpl.
  - destruct (fit E s df); reflexivity.
  - rewrite existsb_app. simpl. rewrite Hs, orb_true_r.
    destruct (fit E s0 df) as [m0|e]; simpl; [|reflexivity].
    destruct (transform E m0 df) as [d|e]; simpl; [|reflexivity].
    rewrite IH. destruct (fit_all E rest d) as [[ms d']|e]; simpl; [|reflexivity].
    destruct (fit E s d'); reflexivity.
Qed.

Lemma fit_all_transform (E : Engine) (stages : list stage) :
  forall df ms d,
    fit_all E stages df = Ok (ms, d) -> pipeline_transform E ms df = Ok d.
Proof.
  induction stages as [|s rest IH]; simpl; intros df ms d H.
  - inversion H. reflexivity.
  - inv_bind_as H m Hm. inv_bind_as H d1 Hd1. inv_bind_as H p Hp.
    inversion H. subst ms d. simpl. rewrite Hd1. simpl.
    apply IH. destruct p. exact Hp.
Qed.

Lemma pipeline_transform_app (E : Engine) (ms ms' : list model) :
  forall df,
    pipeline_transform E (ms ++ ms') df =
    (d <- pipeline_transform E ms df ;; pipeline_transform E ms' d).
Proof.
  induction ms as [|m ms IH]; simpl; intros df; [reflexivity|].
  destruct (transform E m df); simpl; [apply IH | reflexivity].
Qed.

Lemma transform_pipeline_split :
  transform_pipeline = ((indexers ++ [num_assembler]) ++ [num_scaler])%list.
Proof. unfold transform_pipeline. rewrite <- app_assoc. reflexivity. Qed.

(** The pipeline, unfolded: the scaler is fitted on, and applied to, the
    data as the indexers and the assembler leave it. *)
Lemma ml_transform_eq (E : Engine) (df : DataFrame) :
  ml_transform E df =
  (p <- fit_all E (indexers ++ [num_assembler]) df ;;
   m <- fit E num_scaler (snd p) ;;
   d2 <- transform E m (snd p) ;;
   select final_bq_cols d2).
Proof.
  unfold ml_transform. rewrite transform_pipeline_split.
  rewrite pipeline_fit_last by reflexivity.
  destruct (fit_all E (indexers ++ [num_assembler]) df) as [[ms d]|e] eqn:Hf;
    cbn [bind fst snd]; [|reflexivity].
  destruct (fit E num_scaler d) as [m|e]; cbn [bind]; [|reflexivity].
  rewrite pipeline_transform_app, (fit_all_transform _ _ _ _ _ Hf).
  cbn [bind pipeline_transform].
  destruct (transform E m d); reflexivity.
Qed.

Lemma project_set_other (names : list string) (o : string) (v : value) (r : Row) :
  ~ In o names ->
  map (fun c => (c, get c (assoc_set o v r))) names =
  map (fun c => (c, get c r)) names.
Proof.
  intros Hno. induction names as [|c names IH]; simpl; [reflexivity|].
  rewrite IH by (intros H; apply Hno; right; exact H).
  rewrite get_set_other by (intros ->; apply Hno; left; reflexivity).
  reflexivity.
Qed.

(** The scaler and the projection: the scaled vector is computed and then
    left out, so what is projected does not depend on the fitted deviations. *)
Lemma scaler_select_sim (E1 E2 : Engine) (c o : string) (names : list string)
  (a b : DataFrame) :
  ~ In o names -> df_sim a b ->
  res_rel df_sim
    (m <- fit E1 (StandardScaler c o) a ;; d2 <- transform E1 m a ;; select names d2)
    (m <- fit E2 (StandardScaler c o) b ;; d2 <- transform E2 m b ;; select names d2).
Proof.
  intros Hno [Hs Hp]. cbn [fit].
  rewrite (check_inputs_sim _ _ a b Hs), (has_column_sim o a b Hs),
    (Permutation_length Hp).
  destruct (check_inputs [c] (fun ty => match ty with TVector => true | _ => false end) b)
    as [u|e] eqn:Hc; cbn [bind]; [|reflexivity].
  destruct (negb (has_column o b)) eqn:Ho; cbn [bind require]; [|reflexivity].
  destruct (negb (Nat.eqb (List.length (rows b)) 0)); cbn [bind require]; [|reflexivity].
  cbn [transform].
  rewrite (check_inputs_sim _ _ a b Hs), (has_column_sim o a b Hs), Hc, Ho.
  cbn [bind require]. unfold select. cbn [schema rows]. rewrite Hs.
  match goal with
  | |- res_rel _ (bind ?m _) _ => destruct m as [sch|e]
  end; cbn [bind res_rel]; [|reflexivity].
  split; cbn [schema rows]; [reflexivity|].
  rewrite !map_map.
  rewrite (map_ext _ (fun r => map (fun c0 => (c0, get c0 r)) names))
    by (intros r; apply project_set_other; exact Hno).
  rewrite (map_ext (fun r => map (fun c0 => (c0, get c0 (assoc_set o _ r))) names)
                   (fun r => map (fun c0 => (c0, get c0 r)) names))
    by (intros r; apply project_set_other; exact Hno).
  apply Permutation_map. exact Hp.
Qed.

Lemma ml_transform_sim (E1 E2 : Engine) (a b : DataFrame) :
  same_casts E1 E2 -> df_sim a b ->
  res_rel df_sim (ml_transform E1 a) (ml_transform E2 b).
Proof.
  intros HE Hab. rewrite !ml_transform_eq.
  eapply bind_rel.
  - apply fit_all_sim; [exact HE | vm_compute; reflexivity | exact Hab].
  - intros [ms d] [ms' d'] [_ Hd]. cbn [snd].
    apply scaler_select_sim; [apply mem_false; vm_compute; reflexivity | exact Hd].
Qed.

(** C8: the fitted vocabulary depends only on the records, not on the
    order in which they are presented, so re-fitting gives the same
    vocabulary and indices; and two runs of the whole script over the same
    file, with the records in any order and whatever the summarizer and the
    writer do, end alike: the same exception or none, and outputs with the
    same columns, the same number of rows and the same rows. *)
Theorem pipeline_deterministic :
  (forall show c rs rs',
      Permutation rs rs' -> fit_labels show c rs = fit_labels show c rs') /\
  (forall E1 E2 path,
      same_casts E1 E2 ->
      res_rel df_sim (read_csv E1 path) (read_csv E2 path) ->
      same_outcome (main E1 path) (main E2 path)) /\
  (forall E path, same_outcome (main E path) (main E path)).
Proof.
  assert (Hmain : forall E1 E2 path,
      same_casts E1 E2 ->
      res_rel df_sim (read_csv E1 path) (read_csv E2 path) ->
      same_outcome (main E1 path) (main E2 path)).
  { intros E1 E2 path HE Hread. unfold main, same_outcome.
    assert (Hclean : res_rel df_sim (df <- read_csv E1 path ;; clean E1 df)
                                    (df <- read_csv E2 path ;; clean E2 df)).
    { eapply bind_rel; [exact Hread|]. intros a b Hab. apply clean_sim; assumption. }
    destruct (df <- read_csv E1 path ;; clean E1 df) as [a|e1];
      destruct (df <- read_csv E2 path ;; clean E2 df) as [b|e2];
      cbn [res_rel] in Hclean; try contradiction.
    - pose proof (ml_transform_sim E1 E2 a b HE Hclean) as Hml.
      destruct (ml_transform E1 a) as [o1|e1]; destruct (ml_transform E2 b) as [o2|e2];
        cbn [res_rel] in Hml; try contradiction.
      + destruct Hml as [Hs Hp].
        destruct (bq_save E1 BIGQUERY_OUTPUT_TABLE o1);
          destruct (bq_save E2 BIGQUERY_OUTPUT_TABLE o2); cbn [raised handed];
          (split; [reflexivity|]);
          (split; [unfold columns; rewrite Hs; reflexivity|]);
          (split; [apply Permutation_length; exact Hp | exact Hp]).
      + subst e2. cbn [raised handed]. split; [reflexivity | exact I].
    - cbn [raised handed]. split; [reflexivity | exact I]. }
  split; [|split].
  - intros show c rs rs' Hp. apply fit_labels_perm_inv; [reflexivity | exact Hp].
  - exact Hmain.
  - intros E path. apply Hmain.
    + split; reflexivity.
    + destruct (read_csv E path) as [df|e]; cbn [res_rel];
        [split; [reflexivity | apply Permutation_refl] | reflexivity].
Qed.

Lemma pipeline_deterministic_witness :
  Permutation (rows sample_df) (rows sample_df_rev) /\
  fit_labels (fun _ => "1.0") "Sex" (rows sample_df) =
  fit_labels (fun _ => "1.0") "Sex" (rows sample_df_rev) /\
  same_outcome (main (sample_engine (Ok sample_df) None) GCS_FILE_PATH)
               (main (other_engine (Ok sample_df_rev)) GCS_FILE_PATH) /\
  handed (main (sample_engine (Ok sample_df) None) GCS_FILE_PATH) = Some sample_output /\
  handed (main (other_engine (Ok sample_df_rev)) GCS_FILE_PATH) = Some sample_output_rev /\
  List.length (rows sample_output) = 2 /\
  List.length (rows sample_output_rev) = 2.
Proof.
  assert (Hp : Permutation (rows sample_df) (rows sample_df_rev))
    by (unfold sample_df_rev; cbn [rows]; apply Permutation_rev).
  destruct pipeline_deterministic as [Hfit [Hrun _]].
  split; [exact Hp|].
  split; [apply Hfit; exact Hp|].
  split.
  { apply Hrun.
    - split; reflexivity.
    - cbn [read_csv sample_engine other_engine res_rel].
      split; [reflexivity | exact Hp]. }
  repeat split; vm_compute; reflexivity.
Defined.

(** * Further properties of the script *)

(** ** Keys of association lists *)

Lemma assoc_set_keys {A : Type} (k : string) (a : A) (l : list (string * A)) :
  map fst (assoc_set k a l) = add_col k (map fst l).
Proof.
  unfold add_col, mem. induction l as [|[k' a'] t IH]; simpl; [reflexivity|].
  destruct (String.eqb k k') eqn:Hk; simpl.
  - apply String.eqb_eq in Hk. subst k'. reflexivity.
  - rewrite IH. destruct (existsb (String.eqb k) (map fst t)); reflexivity.
Qed.

Lemma assoc_get_mem {A : Type} (k : string) (l : list (string * A)) :
  mem k (map fst l) = match assoc_get k l with Some _ => true | None => false end.
Proof.
  unfold mem. induction l as [|[k' a'] t IH]; simpl; [reflexivity|].
  destruct (String.eqb k k'); simpl; [reflexivity | exact IH].
Qed.

Lemma has_column_mem (c : string) (df : DataFrame) :
  has_column c df = mem c (columns df).
Proof. unfold has_column, columns. rewrite assoc_get_mem. reflexivity. Qed.

Lemma has_column_In (c : string) (df : DataFrame) :
  has_column c df = true <-> In c (columns df).
Proof. rewrite has_column_mem. apply mem_In. Qed.




Lemma assoc_get_del {A : Type} (k n : string) (l : list (string * A)) :
  assoc_get k (assoc_del n l) = if String.eqb n k then None else assoc_get k l.
Proof.
  unfold assoc_del. induction l as [|[k' a'] t IH]; simpl.
  - destruct (String.eqb n k); reflexivity.
  - destruct (String.eqb n k') eqn:Hn; simpl.
    + apply String.eqb_eq in Hn. subst k'. rewrite IH.
      rewrite (String.eqb_sym k n). destruct (String.eqb n k); reflexivity.
    + rewrite IH. destruct (String.eqb k k') eqn:Hk; [|reflexivity].
      apply String.eqb_eq in Hk. subst k'. rewrite Hn. reflexivity.
Qed.

Lemma assoc_get_drop {A : Type} (names : list string) (k : string) :
  forall l : list (string * A),
    assoc_get k (fold_left (fun s c => assoc_del c s) names l) =
    if mem k names then None else assoc_get k l.
Proof.
  unfold mem. induction names as [|n ns IH]; simpl; intros l; [reflexivity|].
  rewrite IH, assoc_get_del, (String.eqb_sym k n).
  destruct (String.eqb n k); simpl; [|reflexivity].
  destruct (existsb (String.eqb k) ns); reflexivity.
Qed.






(** ** Dropping columns *)




(** ** The casts and the cleaning *)

Lemma has_column_assoc_set (c k : string) (ty : dtype) (sch : list (string * dtype))
  (rs rs' : list Row) :
  has_column c (mkDF (assoc_set k ty sch) rs) =
  String.eqb c k || has_column c (mkDF sch rs').
Proof.
  unfold has_column. simpl. destruct (String.eqb c k) eqn:Hk.
  - apply String.eqb_eq in Hk. subst k. rewrite assoc_get_set_same. reflexivity.
  - apply String.eqb_neq in Hk. rewrite assoc_get_set_other by exact Hk. reflexivity.
Qed.

Lemma has_column_schema (c : string) (df : DataFrame) (rs : list Row) :
  has_column c (mkDF (schema df) rs) = has_column c df.
Proof. reflexivity. Qed.

Lemma resolve_one (c : string) (df : DataFrame) :
  resolve [c] df = if has_column c df then Ok tt else Err (ColumnNotFound c).
Proof. unfold resolve. simpl. destruct (has_column c df); reflexivity. Qed.

Lemma resolve_all (cs : list string) (df : DataFrame) :
  (forall c, In c cs -> has_column c df = true) -> resolve cs df = Ok tt.
Proof.
  unfold resolve. induction cs as [|c cs IH]; simpl; intros H; [reflexivity|].
  rewrite (H c) by (left; reflexivity). simpl. apply IH.
  intros c' Hc'. apply H. right. exact Hc'.
Qed.




Lemma schema_normalizer_eq (E : Engine) (df : DataFrame) :
  has_column "WeightInKilograms" df = true ->
  has_column "HeightInMeters" df = true ->
  schema_normalizer E df =
  Ok (mkDF (assoc_set "HeightInMeters" TDouble
              (assoc_set "WeightInKilograms" TDouble (schema df)))
           (map (normalize_row E) (rows df))).
Proof.
  intros Hw Hh. unfold schema_normalizer, withColumn. cbn [refs cast_double col].
  rewrite resolve_one, Hw. cbn [bind]. rewrite resolve_one.
  rewrite (has_column_assoc_set _ _ _ _ _ (rows df)).
  change (has_column "HeightInMeters" (mkDF (schema df) (rows df)))
    with (has_column "HeightInMeters" df).
  rewrite Hh, orb_true_r. cbn [bind schema rows]. rewrite map_map.
  f_equal. f_equal. apply map_ext. intros r. unfold normalize_row.
  cbn [eval cast_double col]. rewrite get_set_other by discriminate. reflexivity.
Qed.

Lemma schema_normalizer_errors (E : Engine) (df : DataFrame) :
  (has_column "WeightInKilograms" df = false ->
   schema_normalizer E df = Err (ColumnNotFound "WeightInKilograms")) /\
  (has_column "WeightInKilograms" df = true ->
   has_column "HeightInMeters" df = false ->
   schema_normalizer E df = Err (ColumnNotFound "HeightInMeters")).
Proof.
  split.
  - intros Hw. unfold schema_normalizer, withColumn. cbn [refs cast_double col].
    rewrite resolve_one, Hw. reflexivity.
  - intros Hw Hh. unfold schema_normalizer, withColumn. cbn [refs cast_double col].
    rewrite resolve_one, Hw. cbn [bind]. rewrite resolve_one.
    rewrite (has_column_assoc_set _ _ _ _ _ (rows df)).
    change (has_column "HeightInMeters" (mkDF (schema df) (rows df)))
      with (has_column "HeightInMeters" df).
    rewrite Hh. reflexivity.
Qed.



Lemma filter_df_eq (c : Column (option bool)) (df : DataFrame) :
  (forall k, In k (refs c) -> has_column k df = true) ->
  filter_df c df = Ok (mkDF (schema df) (filter (keeps c) (rows df))).
Proof.
  intros H. unfold filter_df. rewrite (resolve_all _ _ H). reflexivity.
Qed.

Lemma withColumn_eq (name : string) (ty : dtype) (e : Column value) (df : DataFrame) :
  (forall k, In k (refs e) -> has_column k df = true) ->
  withColumn name ty e df =
  Ok (mkDF (assoc_set name ty (schema df))
           (map (fun r => assoc_set name (eval e r) r) (rows df))).
Proof.
  intros H. unfold withColumn. rewrite (resolve_all _ _ H). reflexivity.
Qed.

(** The schema and the rows that the cleaning produces. *)
Lemma clean_eq (E : Engine) (df : DataFrame) :
  has_column "WeightInKilograms" df = true ->
  has_column "HeightInMeters" df = true ->
  has_column "HadHeartAttack" df = true ->
  clean E df =
  Ok (mkDF (fold_left (fun s c => assoc_del c s) dropped_cols
              (assoc_set "HadHeartAttack_Numeric" TInt
                 (assoc_set "BMI_Calculated" TDouble
                    (assoc_set "HeightInMeters" TDouble
                       (assoc_set "WeightInKilograms" TDouble (schema df))))))
           (map (cleaned_row E)
                (filter (fun r => bmi_survives (normalize_row E r)) (rows df)))).
Proof.
  intros Hw Hh Ho. unfold clean.
  rewrite (schema_normalizer_eq E df Hw Hh). cbn [bind].
  unfold feature_deriver.
  rewrite withColumn_eq.
  2:{ intros k Hk. cbn [refs bmi div col pow2 app] in Hk.
      rewrite (has_column_assoc_set _ _ _ _ _ (rows df)).
      rewrite (has_column_assoc_set _ _ _ _ _ (rows df)).
      change (has_column k (mkDF (schema df) (rows df))) with (has_column k df).
      destruct Hk as [<- | [<- | []]]; [rewrite Hw | rewrite Hh];
        rewrite ?orb_true_r; reflexivity. }
  cbn [bind schema rows].
  rewrite filter_df_eq.
  2:{ intros k Hk. cbn [refs bmi_valid cand isNotNull cnot isnan col app] in Hk.
      rewrite (has_column_assoc_set _ _ _ _ _ (rows df)).
      destruct Hk as [<- | [<- | []]]; reflexivity. }
  cbn [bind schema rows]. unfold label_encoder.
  rewrite withColumn_eq.
  2:{ intros k Hk. cbn [refs when_otherwise eq_lit col] in Hk.
      destruct Hk as [<- | []].
      rewrite (has_column_assoc_set _ _ _ _ _ (rows df)).
      rewrite (has_column_assoc_set _ _ _ _ _ (rows df)).
      rewrite (has_column_assoc_set _ _ _ _ _ (rows df)).
      change (has_column "HadHeartAttack" (mkDF (schema df) (rows df)))
        with (has_column "HadHeartAttack" df).
      rewrite Ho. reflexivity. }
  cbn [bind schema rows]. unfold drop. cbn [schema rows]. f_equal. f_equal.
  rewrite filter_map_comm, filter_map_comm, !map_map.
  apply map_ext. intros r. unfold cleaned_row. cbv zeta.
  rewrite label_value. reflexivity.
Qed.

Lemma clean_errors (E : Engine) (df : DataFrame) :
  (has_column "WeightInKilograms" df = false ->
   clean E df = Err (ColumnNotFound "WeightInKilograms")) /\
  (has_column "WeightInKilograms" df = true ->
   has_column "HeightInMeters" df = false ->
   clean E df = Err (ColumnNotFound "HeightInMeters")) /\
  (has_column "WeightInKilograms" df = true ->
   has_column "HeightInMeters" df = true ->
   has_column "HadHeartAttack" df = false ->
   clean E df = Err (ColumnNotFound "HadHeartAttack")).
Proof.
  destruct (schema_normalizer_errors E df) as [Hw0 Hh0].
  split; [|split].
  - intros Hw. unfold clean. rewrite (Hw0 Hw). reflexivity.
  - intros Hw Hh. unfold clean. rewrite (Hh0 Hw Hh). reflexivity.
  - intros Hw Hh Ho. unfold clean.
    rewrite (schema_normalizer_eq E df Hw Hh). cbn [bind].
    unfold feature_deriver.
    rewrite withColumn_eq.
    2:{ intros k Hk. cbn [refs bmi div col pow2 app] in Hk.
        rewrite (has_column_assoc_set _ _ _ _ _ (rows df)).
        rewrite (has_column_assoc_set _ _ _ _ _ (rows df)).
        change (has_column k (mkDF (schema df) (rows df))) with (has_column k df).
        destruct Hk as [<- | [<- | []]]; [rewrite Hw | rewrite Hh];
          rewrite ?orb_true_r; reflexivity. }
    cbn [bind schema rows].
    rewrite filter_df_eq.
    2:{ intros k Hk. cbn [refs bmi_valid cand isNotNull cnot isnan col app] in Hk.
        rewrite (has_column_assoc_set _ _ _ _ _ (rows df)).
        destruct Hk as [<- | [<- | []]]; reflexivity. }
    cbn [bind schema rows]. unfold label_encoder, withColumn.
    cbn [refs when_otherwise eq_lit col]. rewrite resolve_one.
    rewrite (has_column_assoc_set _ _ _ _ _ (rows df)).
    rewrite (has_column_assoc_set _ _ _ _ _ (rows df)).
    rewrite (has_column_assoc_set _ _ _ _ _ (rows df)).
    change (has_column "HadHeartAttack" (mkDF (schema df) (rows df)))
      with (has_column "HadHeartAttack" df).
    rewrite Ho. reflexivity.
Qed.

Lemma clean_Ok_columns (E : Engine) (df df' : DataFrame) :
  clean E df = Ok df' ->
  has_column "WeightInKilograms" df = true /\
  has_column "HeightInMeters" df = true /\
  has_column "HadHeartAttack" df = true.
Proof.
  destruct (clean_errors E df) as [Hw0 [Hh0 Ho0]]. intros H.
  destruct (has_column "WeightInKilograms" df) eqn:Hw;
    [|rewrite (Hw0 eq_refl) in H; discriminate].
  destruct (has_column "HeightInMeters" df) eqn:Hh;
    [|rewrite (Hh0 eq_refl eq_refl) in H; discriminate].
  destruct (has_column "HadHeartAttack" df) eqn:Ho;
    [|rewrite (Ho0 eq_refl eq_refl eq_refl) in H; discriminate].
  auto.
Qed.

Lemma clean_label_column (E : Engine) (df df' : DataFrame) :
  clean E df = Ok df' -> In "HadHeartAttack_Numeric" (columns df').
Proof.
  intros H. destruct (clean_Ok_columns _ _ _ H) as [Hw [Hh Ho]].
  rewrite (clean_eq E df Hw Hh Ho) in H.
  assert (Hl : has_column "HadHeartAttack_Numeric" df' = true).
  { inversion H. unfold has_column. cbn [schema].
    change (assoc_del "HadHeartAttack"
              (assoc_del "BMI"
                 (assoc_del "WeightInKilograms"
                    (assoc_del "HeightInMeters"
                       (assoc_del "State"
                          (assoc_set "HadHeartAttack_Numeric" TInt
                             (assoc_set "BMI_Calculated" TDouble
                                (assoc_set "HeightInMeters" TDouble
                                   (assoc_set "WeightInKilograms" TDouble
                                      (schema df))))))))))
      with (fold_left (fun s c => assoc_del c s) dropped_cols
              (assoc_set "HadHeartAttack_Numeric" TInt
                 (assoc_set "BMI_Calculated" TDouble
                    (assoc_set "HeightInMeters" TDouble
                       (assoc_set "WeightInKilograms" TDouble (schema df)))))).
    rewrite assoc_get_drop. cbn [mem existsb dropped_cols].
    rewrite assoc_get_set_same. reflexivity. }
  apply has_column_In. exact Hl.
Qed.







(** ** What a run can and cannot do *)

(** Whatever the file and the engine: the session line is printed first and
    at most one more line follows; [spark.stop()] is reached exactly when no
    exception leaves [main]; the success line is printed exactly when the
    table was written, and then nothing was raised; an exception that leaves
    [main] was raised before anything was handed to the sink and nothing is
    printed about it; after a logged processing error nothing is handed to
    the sink; and a logged write error means the DataFrame was handed over
    but the table not written. *)
Theorem run_invariants (E : Engine) (path : string) :
  hd_error (stdout (main E path)) = Some SessionInitialized /\
  List.length (stdout (main E path)) <= 2 /\
  (stopped (main E path) = true <-> raised (main E path) = None) /\
  (written (main E path) = true <-> In WroteSilverLayer (stdout (main E path))) /\
  (written (main E path) = true ->
   raised (main E path) = None /\ exists out, handed (main E path) = Some out) /\
  (forall e, raised (main E path) = Some e ->
             handed (main E path) = None /\ written (main E path) = false /\
             stdout (main E path) = [SessionInitialized]) /\
  (forall msg, In (ErrorDuringProcessing msg) (stdout (main E path)) ->
               handed (main E path) = None /\ written (main E path) = false /\
               raised (main E path) = None) /\
  (forall msg, In (ErrorCouldNotWrite msg) (stdout (main E path)) ->
               written (main E path) = false /\
               exists out, handed (main E path) = Some out).
Proof.
  unfold main.
  destruct (df <- read_csv E path ;; clean E df) as [df|e0];
    [destruct (ml_transform E df) as [out|e1];
     [destruct (bq_save E BIGQUERY_OUTPUT_TABLE out) as [e2|]|]|];
    cbn; repeat split; intros; try discriminate; try lia; eauto;
    repeat match goal with
           | H : _ \/ _ |- _ => destruct H
           | H : False |- _ => destruct H
           | H : @eq printed _ _ |- _ => discriminate H
           end.
Qed.

Lemma run_invariants_witness :
  In (ErrorCouldNotWrite (str_of_error (WriteFailed BIGQUERY_OUTPUT_TABLE)))
     (stdout failing_sink_run) /\
  written failing_sink_run = false /\
  (exists out, handed failing_sink_run = Some out) /\
  stopped failing_sink_run = true /\
  written sample_run = true /\ raised sample_run = None.
Proof.
  assert (H : In (ErrorCouldNotWrite (str_of_error (WriteFailed BIGQUERY_OUTPUT_TABLE)))
                 (stdout failing_sink_run)) by (vm_compute; auto).
  destruct (run_invariants
              (sample_engine (Ok sample_df) (Some (WriteFailed BIGQUERY_OUTPUT_TABLE)))
              GCS_FILE_PATH) as [_ [_ [_ [_ [_ [_ [_ Hw]]]]]]].
  destruct (Hw _ H) as [Hwr Hh].
  destruct (run_invariants (sample_engine (Ok sample_df) None) GCS_FILE_PATH)
    as [_ [_ [_ [_ [Hs _]]]]].
  assert (Hok : written sample_run = true) by (vm_compute; reflexivity).
  split; [exact H|]. split; [exact Hwr|]. split; [exact Hh|].
  split; [vm_compute; reflexivity|]. split; [exact Hok|].
  exact (proj1 (Hs Hok)).
Defined.

(** ** The schema through the pipeline *)

Lemma check_inputs_Ok (cs : list string) (ok : dtype -> bool) (df : DataFrame)
  (u : unit) :
  check_inputs cs ok df = Ok u ->
  forall c, In c cs -> exists ty, assoc_get c (schema df) = Some ty /\ ok ty = true.
Proof.
  unfold check_inputs. revert u. induction cs as [|c0 cs IH]; simpl; intros u H c Hc.
  - contradiction.
  - inv_bind_as H ty Hty. inv_bind_as H u1 Hu1.
    destruct Hc as [<- | Hc].
    + exists ty. unfold column_type in Hty.
      destruct (assoc_get c0 (schema df)) as [ty'|]; [|discriminate].
      inversion Hty. subst ty'. split; [reflexivity|].
      destruct (ok ty); [reflexivity | discriminate].
    + eapply IH; eassumption.
Qed.

Lemma filter_some_length {A : Type} (l : list (option A)) :
  List.length (filter_some l) <= List.length l.
Proof.
  induction l as [|[a|] l IH]; simpl; lia.
Qed.

Lemma assoc_get_has_column (c : string) (df : DataFrame) (ty : dtype) :
  assoc_get c (schema df) = Some ty -> has_column c df = true.
Proof. unfold has_column. intros ->. reflexivity. Qed.

(** A stage that has been fitted on [df] and applied to it: its output
    column was not there, its inputs were there with accepted types, and the
    result has one more column and no more rows. *)
Lemma fit_transform_step (E : Engine) (s : stage) (df : DataFrame) (m : model)
  (df' : DataFrame) :
  fit E s df = Ok m -> transform E m df = Ok df' ->
  has_column (stage_output s) df = false /\
  (forall c, In c (stage_inputs s) ->
             exists ty, assoc_get c (schema df) = Some ty /\ stage_accepts s ty = true) /\
  (exists ty, schema df' = assoc_set (stage_output s) ty (schema df)) /\
  List.length (rows df') <= List.length (rows df).
Proof.
  destruct s as [c out|cs out|c out]; cbn [fit]; intros Hf Ht.
  - inv_bind_as Hf u Hu. inv_bind_as Hf u1 Hu1. inversion Hf. subst m. clear Hf.
    pose proof (check_inputs_Ok _ _ _ _ Hu) as Hin.
    destruct (Hin c (or_introl eq_refl)) as [ty [Hty Hok]].
    cbn [transform] in Ht. rewrite (assoc_get_has_column _ _ _ Hty) in Ht.
    inv_bind_as Ht u2 Hu2. inversion Ht. subst df'. clear Ht.
    cbn [stage_output stage_inputs stage_accepts schema rows].
    split.
    { destruct (has_column out df); [discriminate Hu2 | reflexivity]. }
    split; [exact Hin|]. split; [eauto|].
    eapply Nat.le_trans; [apply filter_some_length | rewrite length_map; lia].
  - inversion Hf. subst m. clear Hf. cbn [transform] in Ht.
    inv_bind_as Ht u Hu. inv_bind_as Ht u2 Hu2. inversion Ht. subst df'. clear Ht.
    cbn [stage_output stage_inputs stage_accepts schema rows].
    split.
    { destruct (has_column out df); [discriminate Hu2 | reflexivity]. }
    split; [exact (check_inputs_Ok _ _ _ _ Hu)|]. split; [eauto|].
    eapply Nat.le_trans; [apply filter_some_length | rewrite length_map; lia].
  - inv_bind_as Hf u Hu. inv_bind_as Hf u1 Hu1. inv_bind_as Hf u3 Hu3.
    inversion Hf. subst m. clear Hf.
    cbn [transform] in Ht.
    inv_bind_as Ht u' Hu'. inv_bind_as Ht u2 Hu2. inversion Ht. subst df'. clear Ht.
    cbn [stage_output stage_inputs stage_accepts schema rows].
    split.
    { destruct (has_column out df); [discriminate Hu2 | reflexivity]. }
    split; [exact (check_inputs_Ok _ _ _ _ Hu)|]. split; [eauto|].
    rewrite length_map. lia.
Qed.

Lemma columns_appended (df df' : DataFrame) (o : string) (ty : dtype) :
  has_column o df = false ->
  schema df' = assoc_set o ty (schema df) ->
  columns df' = (columns df ++ [o])%list.
Proof.
  intros Ho Hs. unfold columns. rewrite Hs, assoc_set_keys. unfold add_col.
  change (map fst (schema df)) with (columns df).
  rewrite <- has_column_mem, Ho. reflexivity.
Qed.

Lemma fit_all_schema (E : Engine) (stages : list stage) :
  forall df ms d,
    fit_all E stages df = Ok (ms, d) ->
    columns d = (columns df ++ map stage_output stages)%list /\
    (forall c, In c (columns df) -> assoc_get c (schema d) = assoc_get c (schema df)) /\
    (forall o, In o (map stage_output stages) -> ~ In o (columns df)) /\
    NoDup (map stage_output stages) /\
    (forall s c, In s stages -> In c (stage_inputs s) ->
                 In c (columns d) /\
                 (In c (columns df) ->
                  exists ty, assoc_get c (schema df) = Some ty /\
                             stage_accepts s ty = true)) /\
    List.length (rows d) <= List.length (rows df).
Proof.
  induction stages as [|s rest IH]; intros df ms d H.
  - cbn [fit_all] in H. inversion H. subst. cbn [map]. rewrite app_nil_r.
    repeat split; auto; try contradiction. constructor.
  - cbn [fit_all] in H. inv_bind_as H m Hm. inv_bind_as H df1 Hdf1.
    inv_bind_as H p Hp. inversion H. subst ms d. clear H.
    destruct p as [ms' d']. cbn [fst snd] in *.
    destruct (fit_transform_step _ _ _ _ _ Hm Hdf1) as [Hout [Hin [[ty Hsch] Hlen]]].
    pose proof (columns_appended _ _ _ _ Hout Hsch) as Hcols1.
    destruct (IH _ _ _ Hp) as [Hcols [Hty [Houts [Hnd [Hins Hlen']]]]].
    assert (Hnot : ~ In (stage_output s) (columns df)).
    { intros Hc. apply has_column_In in Hc. congruence. }
    assert (Hsame : forall c, In c (columns df) ->
                      assoc_get c (schema df1) = assoc_get c (schema df)).
    { intros c Hc. rewrite Hsch. apply assoc_get_set_other.
      intros ->. contradiction. }
    split.
    { rewrite Hcols, Hcols1, <- app_assoc. reflexivity. }
    split.
    { intros c Hc. rewrite Hty by (rewrite Hcols1; apply in_or_app; auto).
      apply Hsame. exact Hc. }
    split.
    { cbn [map]. intros o [<- | Ho]; [exact Hnot|].
      intros Hc. apply (Houts o Ho). rewrite Hcols1. apply in_or_app. auto. }
    split.
    { cbn [map]. constructor; [|exact Hnd].
      intros Ho. apply (Houts _ Ho). rewrite Hcols1. apply in_or_app.
      right. left. reflexivity. }
    split; [|lia].
    intros s0 c [<- | Hs0] Hc.
    + destruct (Hin c Hc) as [ty0 [Hty0 Hok]]. split.
      * rewrite Hcols, Hcols1. apply in_or_app. left. apply in_or_app. left.
        apply has_column_In. eapply assoc_get_has_column. exact Hty0.
      * intros _. eauto.
    + destruct (Hins s0 c Hs0 Hc) as [Hind Htyd]. split; [exact Hind|].
      intros Hcdf. destruct Htyd as [ty0 [Hty0 Hok]].
      * rewrite Hcols1. apply in_or_app. auto.
      * exists ty0. rewrite <- Hsame by exact Hcdf. auto.
Qed.

Lemma ml_transform_stages (E : Engine) (df out : DataFrame) :
  ml_transform E df = Ok out ->
  exists ms d m d2,
    fit_all E (indexers ++ [num_assembler]) df = Ok (ms, d) /\
    fit E num_scaler d = Ok m /\
    transform E m d = Ok d2 /\
    select final_bq_cols d2 = Ok out.
Proof.
  rewrite ml_transform_eq. intros H.
  inv_bind_as H p Hp. inv_bind_as H m Hm. inv_bind_as H d2 Hd2.
  destruct p as [ms d]. cbn [snd] in *. exists ms, d, m, d2. auto.
Qed.

Lemma pipeline_fit_stages (E : Engine) (df : DataFrame) (fitted : list model) :
  pipeline_fit E transform_pipeline df = Ok fitted ->
  exists ms d m,
    fit_all E (indexers ++ [num_assembler]) df = Ok (ms, d) /\
    fit E num_scaler d = Ok m /\
    fitted = (ms ++ [m])%list /\
    pipeline_transform E fitted df = transform E m d.
Proof.
  rewrite transform_pipeline_split, pipeline_fit_last by reflexivity. intros H.
  inv_bind_as H p Hp. inv_bind_as H m Hm. inversion H. subst fitted. clear H.
  destruct p as [ms d]. cbn [fst snd] in *. exists ms, d, m.
  split; [exact Hp|]. split; [exact Hm|]. split; [reflexivity|].
  rewrite pipeline_transform_app, (fit_all_transform _ _ _ _ _ Hp).
  cbn [bind pipeline_transform]. destruct (transform E m d); reflexivity.
Qed.

Lemma select_Ok_columns (names : list string) (df out : DataFrame) :
  select names df = Ok out -> forall c, In c names -> In c (columns df).
Proof.
  unfold select. intros H. inv_bind_as H sch Hsch. clear H. revert sch Hsch.
  induction names as [|n names IH]; simpl; intros sch Hsch c Hc; [contradiction|].
  destruct (assoc_get n (schema df)) as [ty|] eqn:Hn; [|discriminate].
  inv_bind_as Hsch s Hs. destruct Hc as [<- | Hc].
  - apply has_column_In. eapply assoc_get_has_column. exact Hn.
  - eapply IH; eassumption.
Qed.

Lemma select_succeeds (names : list string) (df : DataFrame) :
  (forall c, In c names -> In c (columns df)) ->
  exists out, select names df = Ok out.
Proof.
  intros H. unfold select.
  assert (Hs : exists sch,
             fold_right
               (fun c k =>
                  match assoc_get c (schema df) with
                  | Some ty => s <- k ;; Ok ((c, ty) :: s)
                  | None => Err (ColumnNotFound c)
                  end) (Ok []) names = Ok sch).
  { induction names as [|n names IH]; simpl; [eauto|].
    destruct IH as [sch Hsch]; [intros c Hc; apply H; right; exact Hc|].
    assert (Hn : In n (columns df)) by (apply H; left; reflexivity).
    apply has_column_In in Hn. unfold has_column in Hn.
    destruct (assoc_get n (schema df)) as [ty|]; [|discriminate].
    rewrite Hsch. cbn [bind]. eauto. }
  destruct Hs as [sch Hsch]. rewrite Hsch. cbn [bind]. eauto.
Qed.

Lemma pipeline_outputs :
  map stage_output (indexers ++ [num_assembler]) =
  (indexed_cols ++ ["num_features_unscaled"])%list.
Proof. vm_compute. reflexivity. Qed.

Lemma inputs_not_outputs :
  forall c, In c (categorical_cols ++ numerical_cols ++ ["HadHeartAttack_Numeric"]) ->
            ~ In c (indexed_cols ++ ["num_features_unscaled"; "num_features_scaled"]).
Proof. apply disjointb_spec. vm_compute. reflexivity. Qed.

Lemma indexer_stage_In (c : string) :
  In c categorical_cols ->
  In (StringIndexer c (c ++ "_indexed")) (indexers ++ [num_assembler]).
Proof.
  intros H. apply in_or_app. left. unfold indexers. apply in_map_iff.
  exists c. auto.
Qed.

Lemma ml_transform_row_count (E : Engine) (df out : DataFrame) :
  ml_transform E df = Ok out ->
  0 < List.length (rows out) /\ List.length (rows out) <= List.length (rows df).
Proof.
  intros H.
  destruct (ml_transform_stages _ _ _ H) as [ms [d [m [d2 [Hfit [Hm [Hd2 Hsel]]]]]]].
  destruct (fit_all_schema _ _ _ _ _ Hfit) as [_ [_ [_ [_ [_ Hlen]]]]].
  assert (Hrows : List.length (rows out) = List.length (rows d)).
  { rewrite (select_rows _ _ _ Hsel), length_map.
    cbn [fit num_scaler] in Hm. inv_bind_as Hm u Hu. inv_bind_as Hm u1 Hu1.
    inv_bind_as Hm u2 Hu2. inversion Hm. subst m. cbn [transform] in Hd2.
    inv_bind_as Hd2 u3 Hu3. inv_bind_as Hd2 u4 Hu4. inversion Hd2.
    cbn [rows]. apply length_map. }
  rewrite Hrows. split; [|exact Hlen].
  cbn [fit num_scaler] in Hm. inv_bind_as Hm u Hu. inv_bind_as Hm u1 Hu1.
  inv_bind_as Hm u2 Hu2.
  destruct (Nat.eqb (List.length (rows d)) 0) eqn:He; [discriminate Hu2|].
  apply Nat.eqb_neq in He. lia.
Qed.

(** What the pipeline needs of the cleaned data.  If fit, transform and
    projection succeed, then every categorical column was there and not
    vector-typed, every numerical column was there and not string-typed, the
    label column was there, none of the 32 index columns nor the two vector
    columns existed beforehand, and the output has at least one row and no
    more rows than the cleaned data. *)
Theorem pipeline_requirements (E : Engine) (df out : DataFrame) :
  ml_transform E df = Ok out ->
  (forall c, In c categorical_cols ->
             exists ty, assoc_get c (schema df) = Some ty /\ ty <> TVector) /\
  (forall c, In c numerical_cols ->
             exists ty, assoc_get c (schema df) = Some ty /\ ty <> TString) /\
  In "HadHeartAttack_Numeric" (columns df) /\
  (forall o, In o indexed_cols -> ~ In o (columns df)) /\
  ~ In "num_features_unscaled" (columns df) /\
  ~ In "num_features_scaled" (columns df) /\
  0 < List.length (rows out) /\
  List.length (rows out) <= List.length (rows df).
Proof.
  intros H.
  destruct (ml_transform_stages _ _ _ H) as [ms [d [m [d2 [Hfit [Hm [Hd2 Hsel]]]]]]].
  destruct (fit_all_schema _ _ _ _ _ Hfit) as [Hcols [_ [Houts [_ [Hins Hlen]]]]].
  rewrite pipeline_outputs in Hcols, Houts.
  destruct (fit_transform_step _ _ _ _ _ Hm Hd2) as [Hsc [_ [[ty Hsch] _]]].
  pose proof (columns_appended _ _ _ _ Hsc Hsch) as Hcols2.
  cbn [stage_output num_scaler] in Hsc, Hcols2.
  assert (Hfrom : forall c,
            In c (categorical_cols ++ numerical_cols ++ ["HadHeartAttack_Numeric"]) ->
            In c (columns d2) -> In c (columns df)).
  { intros c Hc Hin. rewrite Hcols2, Hcols, <- app_assoc, <- app_assoc in Hin.
    apply in_app_or in Hin. destruct Hin as [Hin | Hin]; [exact Hin|].
    exfalso. apply (inputs_not_outputs c Hc). exact Hin. }
  assert (Hd_d2 : forall c, In c (columns d) -> In c (columns d2)).
  { intros c Hc. rewrite Hcols2. apply in_or_app. auto. }
  split.
  { intros c Hc.
    destruct (Hins _ c (indexer_stage_In c Hc) (or_introl eq_refl)) as [Hin Hty].
    destruct Hty as [ty0 [Hty0 Hok]].
    - apply Hfrom; [apply in_or_app; auto | apply Hd_d2; exact Hin].
    - exists ty0. split; [exact Hty0|]. intros ->. discriminate Hok. }
  split.
  { intros c Hc.
    assert (Hst : In num_assembler (indexers ++ [num_assembler]))
      by (apply in_or_app; right; left; reflexivity).
    destruct (Hins _ c Hst Hc) as [Hin Hty].
    destruct Hty as [ty0 [Hty0 Hok]].
    - apply Hfrom; [apply in_or_app; right; apply in_or_app; auto
                   | apply Hd_d2; exact Hin].
    - exists ty0. split; [exact Hty0|]. intros ->. discriminate Hok. }
  split.
  { apply Hfrom; [apply in_or_app; right; apply in_or_app; right; left; reflexivity|].
    apply (select_Ok_columns _ _ _ Hsel). apply final_bq_cols_In. auto. }
  split.
  { intros o Ho. apply Houts. apply in_or_app. auto. }
  split.
  { apply Houts. apply in_or_app. right. left. reflexivity. }
  split.
  { intros Hin.
    assert (Hd : has_column "num_features_scaled" d = true)
      by (apply has_column_In; rewrite Hcols; apply in_or_app; auto).
    congruence. }
  exact (ml_transform_row_count _ _ _ H).
Qed.

Lemma pipeline_requirements_witness :
  ml_transform (sample_engine (Ok sample_df) None) sample_cleaned = Ok sample_output /\
  List.length (rows sample_cleaned) = 3 /\
  List.length (rows sample_output) = 2 /\
  In "HadHeartAttack_Numeric" (columns sample_cleaned) /\
  ~ In "num_features_scaled" (columns sample_cleaned).
Proof.
  assert (H : ml_transform (sample_engine (Ok sample_df) None) sample_cleaned
              = Ok sample_output) by (vm_compute; reflexivity).
  destruct (pipeline_requirements _ _ _ H) as [_ [_ [Hl [_ [_ [Hs _]]]]]].
  split; [exact H|]. split; [reflexivity|]. split; [reflexivity|].
  split; [exact Hl | exact Hs].
Defined.

(** Once fit and transform have succeeded on cleaned data, the processed
    DataFrame has the cleaned columns followed by the 32 index columns and
    the two vector columns, and the final projection cannot fail: the
    pipeline part of [main] raises only from [fit] or [transform]. *)
Theorem projection_cannot_fail (E : Engine) (df0 df : DataFrame)
  (fitted : list model) (processed : DataFrame) :
  clean E df0 = Ok df ->
  pipeline_fit E transform_pipeline df = Ok fitted ->
  pipeline_transform E fitted df = Ok processed ->
  columns processed =
    (columns df ++ indexed_cols ++
     ["num_features_unscaled"; "num_features_scaled"])%list /\
  (forall c, In c (columns df) ->
             assoc_get c (schema processed) = assoc_get c (schema df)) /\
  exists out, select final_bq_cols processed = Ok out /\ ml_transform E df = Ok out.
Proof.
  intros Hclean Hf Ht.
  destruct (pipeline_fit_stages _ _ _ Hf) as [ms [d [m [Hfit [Hm [Hfitted Heq]]]]]].
  rewrite Heq in Ht.
  destruct (fit_all_schema _ _ _ _ _ Hfit) as [Hcols [Hty [_ [_ [Hins _]]]]].
  rewrite pipeline_outputs in Hcols.
  destruct (fit_transform_step _ _ _ _ _ Hm Ht) as [Hsc [_ [[ty Hsch] _]]].
  pose proof (columns_appended _ _ _ _ Hsc Hsch) as Hcols2.
  cbn [stage_output num_scaler] in Hsc, Hcols2.
  assert (Hall : columns processed =
                 (columns df ++ indexed_cols ++
                  ["num_features_unscaled"; "num_features_scaled"])%list).
  { rewrite Hcols2, Hcols, <- !app_assoc. reflexivity. }
  split; [exact Hall|].
  split.
  { intros c Hc. rewrite Hsch, assoc_get_set_other.
    - apply Hty. exact Hc.
    - intros ->.
      assert (Hd : has_column "num_features_scaled" d = true)
        by (apply has_column_In; rewrite Hcols; apply in_or_app; auto).
      congruence. }
  destruct (select_succeeds final_bq_cols processed) as [out Hout].
  { intros c Hc. apply final_bq_cols_In in Hc.
    destruct Hc as [-> | [[k [Hk ->]] | Hc]].
    - rewrite Hall. apply in_or_app. left.
      eapply clean_label_column. exact Hclean.
    - rewrite Hall. apply in_or_app. right. apply in_or_app. left.
      unfold indexed_cols. apply in_map_iff. exists k. auto.
    - rewrite Hcols2. apply in_or_app. left.
      assert (Hst : In num_assembler (indexers ++ [num_assembler]))
        by (apply in_or_app; right; left; reflexivity).
      exact (proj1 (Hins _ c Hst Hc)). }
  exists out. split; [exact Hout|].
  rewrite ml_transform_eq, Hfit. cbn [bind snd]. rewrite Hm. cbn [bind].
  rewrite Ht. cbn [bind]. exact Hout.
Qed.

Lemma projection_cannot_fail_witness :
  clean (sample_engine (Ok sample_df) None) sample_df = Ok sample_cleaned /\
  pipeline_fit (sample_engine (Ok sample_df) None) transform_pipeline sample_cleaned
    = Ok sample_fitted /\
  pipeline_transform (sample_engine (Ok sample_df) None) sample_fitted sample_cleaned
    = Ok sample_processed /\
  List.length (columns sample_processed) = 71 /\
  exists out, select final_bq_cols sample_processed = Ok out.
Proof.
  assert (H1 : clean (sample_engine (Ok sample_df) None) sample_df = Ok sample_cleaned)
    by (vm_compute; reflexivity).
  assert (H2 : pipeline_fit (sample_engine (Ok sample_df) None) transform_pipeline
                 sample_cleaned = Ok sample_fitted) by (vm_compute; reflexivity).
  assert (H3 : pipeline_transform (sample_engine (Ok sample_df) None) sample_fitted
                 sample_cleaned = Ok sample_processed) by (vm_compute; reflexivity).
  destruct (projection_cannot_fail _ _ _ _ _ H1 H2 H3) as [_ [_ [out [Hout _]]]].
  split; [exact H1|]. split; [exact H2|]. split; [exact H3|].
  split; [vm_compute; reflexivity|]. exists out. exact Hout.
Defined.

(** ** Which records reach the table *)













(** ** From the file to the table *)





